(** * Furniture fit checker: the fit-evaluation engine

    A shallow embedding of the geometry of the viewers
    ([FurnitureModels.ts], [ARViewer.tsx], [FurnitureSelector.tsx],
    [RealTimeARViewer.tsx], [CloudVisionARViewer.tsx] and the
    SmartARViewer component) and the properties of the fit verdict.

    JavaScript numbers are read as exact rationals ([Q]): the properties
    below are about comparisons, products with fixed factors and clamping,
    and none of them is about rounding.  Component state ([useState]) is
    passed explicitly; a state updater [prev => ...] is a function on the
    previous value; the window size [Dimensions.get('window')] is a pair of
    section variables in each viewer. *)

From Stdlib Require Import QArith Qminmax Qround Qabs Lqa Lia ZArith.
From Stdlib Require Import String Ascii List Bool DecimalString Permutation.
Import ListNotations.

Local Open Scope Q_scope.

(** ** JavaScript primitives used by the components *)

Module JS.

(** [a < b], [a <= b], [a > b], [a >= b] on numbers. *)
Definition ltb (a b : Q) : bool :=
  match a ?= b with Lt => true | _ => false end.
Definition leb (a b : Q) : bool := Qle_bool a b.
Definition gtb (a b : Q) : bool := ltb b a.
Definition geb (a b : Q) : bool := leb b a.

Definition Math_max (a b : Q) : Q := Qmax a b.
Definition Math_min (a b : Q) : Q := Qmin a b.

(** [Math.round]: the nearest integer, halves rounded up. *)
Definition Math_round (a : Q) : Z := Qfloor (a + 0.5).

(** An integer inside a template literal. *)
Definition show (z : Z) : string := NilZero.string_of_int (Z.to_int z).

(** A [string | null] inside a template literal. *)
Definition show_nullable (o : option string) : string :=
  match o with Some s => s | None => "null"%string end.

(** What [parseFloat] returns: a number, an infinity or [NaN]. *)
Inductive value :=
| NaN
| Infinity (negative : bool)
| Num (q : Q).

(** Truthiness of a number: [NaN] and zero are falsy. *)
Definition truthy (v : value) : bool :=
  match v with
  | NaN => false
  | Infinity _ => true
  | Num q => negb (Qeq_bool q 0)
  end.

(** [a || b] on numbers. *)
Definition or (a b : value) : value := if truthy a then a else b.

(** White space and line terminators (the ASCII ones). *)
Definition isWhiteSpace (c : ascii) : bool :=
  match N_of_ascii c with
  | 9 | 10 | 11 | 12 | 13 | 32 => true
  | _ => false
  end%N.

Fixpoint trimStart (s : string) : string :=
  match s with
  | String c rest => if isWhiteSpace c then trimStart rest else s
  | EmptyString => s
  end.

Definition digit (c : ascii) : option Z :=
  let n := Z.of_N (N_of_ascii c) in
  if ((48 <=? n) && (n <=? 57))%Z then Some (n - 48)%Z else None.

(** Reads the longest run of decimal digits: the number read on top of
    [acc], how many digits were read, and the rest of the string. *)
Fixpoint digits (s : string) (acc : Z) (count : Z) : Z * Z * string :=
  match s with
  | String c rest =>
      match digit c with
      | Some d => digits rest (10 * acc + d)%Z (count + 1)%Z
      | None => (acc, count, s)
      end
  | EmptyString => (acc, count, s)
  end.

Definition sign (s : string) : bool * string :=
  match s with
  | String "-" rest => (true, rest)
  | String "+" rest => (false, rest)
  | _ => (false, s)
  end.

(** The exponent part [e±ddd], 0 when there is none or it has no digit. *)
Definition exponent (s : string) : Z :=
  match s with
  | String c rest =>
      if (Ascii.eqb c "e" || Ascii.eqb c "E")%bool then
        let '(negative, rest') := sign rest in
        let '(e, count, _) := digits rest' 0%Z 0%Z in
        if (count =? 0)%Z then 0%Z
        else if negative then (- e)%Z else e
      else 0%Z
  | EmptyString => 0%Z
  end.

(** [parseFloat]: leading white space is skipped and the longest prefix
    that is a decimal literal is read; [NaN] when there is none.  The value
    read is exact: a literal too large or too small for a double is kept as
    it is written. *)
Definition parseFloat (s : string) : value :=
  let '(negative, s1) := sign (trimStart s) in
  if String.prefix "Infinity" s1 then Infinity negative
  else
    let '(i, ni, s2) := digits s1 0%Z 0%Z in
    let '(m, nf, s3) :=
      match s2 with
      | String "." rest => digits rest i 0%Z
      | _ => (i, 0%Z, s2)
      end in
    if ((ni =? 0) && (nf =? 0))%Z then NaN
    else
      let magnitude := inject_Z m * 10 ^ (exponent s3 - nf) in
      Num (if negative then - magnitude else magnitude).

End JS.

Declare Scope js_scope.
Delimit Scope js_scope with js.
Infix "<?" := JS.ltb (at level 70) : js_scope.
Infix "<=?" := JS.leb (at level 70) : js_scope.
Infix ">?" := JS.gtb (at level 70) : js_scope.
Infix ">=?" := JS.geb (at level 70) : js_scope.
Local Open Scope js_scope.

(** ** FurnitureModels.ts *)

Inductive FurnitureType := sofa | table | shelf.

(** [{width, height, depth}], of numbers in a model and of whatever
    [parseFloat] gave in a custom item. *)
Record DimensionsOf (N : Type) := {
  width : N;
  height : N;
  depth : N
}.
Arguments width {N} _.
Arguments height {N} _.
Arguments depth {N} _.

Record FurnitureModelOf (N : Type) := {
  id : string;
  name : string;
  type : FurnitureType;
  dimensions : DimensionsOf N;
  color : string
}.
Arguments id {N} _.
Arguments name {N} _.
Arguments type {N} _.
Arguments dimensions {N} _.
Arguments color {N} _.

Definition Dimensions := DimensionsOf Q.
Definition FurnitureModel := FurnitureModelOf Q.

Definition sofa_1 : FurnitureModel :=
  {| id := "sofa-1"; name := "3-Seater Sofa"; type := sofa;
     dimensions := {| width := 200; height := 85; depth := 90 |};
     color := "#8B4513" |}.

Definition table_1 : FurnitureModel :=
  {| id := "table-1"; name := "Dining Table"; type := table;
     dimensions := {| width := 160; height := 75; depth := 90 |};
     color := "#654321" |}.

Definition shelf_1 : FurnitureModel :=
  {| id := "shelf-1"; name := "Bookshelf"; type := shelf;
     dimensions := {| width := 80; height := 180; depth := 35 |};
     color := "#A0522D" |}.

Definition sofa_2 : FurnitureModel :=
  {| id := "sofa-2"; name := "2-Seater Sofa"; type := sofa;
     dimensions := {| width := 150; height := 85; depth := 90 |};
     color := "#696969" |}.

Definition table_2 : FurnitureModel :=
  {| id := "table-2"; name := "Coffee Table"; type := table;
     dimensions := {| width := 120; height := 45; depth := 60 |};
     color := "#8B7355" |}.

Definition furniturePresets : list FurnitureModel :=
  [sofa_1; table_1; shelf_1; sofa_2; table_2].

(** [THREE.Vector3]. *)
Record Vector3 := { vx : Q; vy : Q; vz : Q }.

Record RoomBounds := {
  minX : Q; maxX : Q;
  minY : Q; maxY : Q;
  minZ : Q; maxZ : Q
}.

Module FurnitureModels.

Definition getRoomBounds (roomDimensions : Dimensions) : RoomBounds :=
  {| minX := - width roomDimensions / 200;
     maxX := width roomDimensions / 200;
     minY := 0;
     maxY := height roomDimensions / 100;
     minZ := - depth roomDimensions / 200;
     maxZ := depth roomDimensions / 200 |}.

Definition checkFit (furnitureModel : FurnitureModel) (position : Vector3)
    (roomDimensions : Dimensions) : bool :=
  let bounds := getRoomBounds roomDimensions in
  let halfWidth := width (dimensions furnitureModel) / 200 in
  let halfHeight := height (dimensions furnitureModel) / 200 in
  let halfDepth := depth (dimensions furnitureModel) / 200 in
  let fits :=
    (vx position - halfWidth >=? minX bounds) &&
    (vx position + halfWidth <=? maxX bounds) &&
    (vy position >=? minY bounds) &&
    (vy position + halfHeight <=? maxY bounds) &&
    (vz position - halfDepth >=? minZ bounds) &&
    (vz position + halfDepth <=? maxZ bounds) in
  fits.

End FurnitureModels.

(** ** Shared shapes of the screen-space viewers *)

(** A point of the screen, [{x, y}]. *)
Record Point := { px : Q; py : Q }.

(** A rectangle given by its top-left corner and its size,
    [{x, y, width, height}]. *)
Record Box := { box_x : Q; box_y : Q; box_width : Q; box_height : Q }.

(** The overlap test every [checkCollision] writes out: the furniture
    rectangle by its four edges against a rectangle by its corner [(x, y)]
    and its far edges. *)
Definition overlaps (furnitureLeft furnitureRight furnitureTop furnitureBottom
    x zoneRight y zoneBottom : Q) : bool :=
  negb ((furnitureRight <? x) ||
        (furnitureLeft >? zoneRight) ||
        (furnitureBottom <? y) ||
        (furnitureTop >? zoneBottom)).

(** The furniture rectangle, centred at [(x, y)], meets the closed rectangle
    with corner [(bx, by)] and size [bw] by [bh]. *)
Definition meets (x y w h bx by_ bw bh : Q) : Prop :=
  bx <= x + w / 2 /\ x - w / 2 <= bx + bw /\
  by_ <= y + h / 2 /\ y - h / 2 <= by_ + bh.

Inductive Direction := left | right | up | down.

(** ** SimpleARViewer (ARViewer.tsx) *)

Module SimpleARViewer.

Record State := {
  furnitureScale : Q;
  furniturePosition : Point
}.

Definition initialState : State :=
  {| furnitureScale := 1; furniturePosition := {| px := 50; py := 50 |} |}.

Definition checkFit (selectedFurniture : option FurnitureModel)
    (roomDimensions : Dimensions) (st : State) : bool :=
  match selectedFurniture with
  | None => true
  | Some selected =>
      let scaledWidth := width (dimensions selected) * furnitureScale st in
      let scaledDepth := depth (dimensions selected) * furnitureScale st in
      (scaledWidth <=? width roomDimensions) &&
      (scaledDepth <=? depth roomDimensions)
  end.

Definition moveFurniture (direction : Direction) (st : State) : State :=
  let step := 10 in
  let prev := furniturePosition st in
  {| furnitureScale := furnitureScale st;
     furniturePosition :=
       match direction with
       | left => {| px := JS.Math_max 0 (px prev - step); py := py prev |}
       | right => {| px := JS.Math_min 100 (px prev + step); py := py prev |}
       | up => {| px := px prev; py := JS.Math_max 0 (py prev - step) |}
       | down => {| px := px prev; py := JS.Math_min 100 (py prev + step) |}
       end |}.

Definition adjustScale (increase : bool) (st : State) : State :=
  let prev := furnitureScale st in
  let newScale := if increase then prev * 1.1 else prev * 0.9 in
  {| furnitureScale := JS.Math_max 0.1 (JS.Math_min 3 newScale);
     furniturePosition := furniturePosition st |}.

End SimpleARViewer.

(** ** CameraARViewer (FurnitureSelector.tsx) *)

Module CameraARViewer.

Record State := {
  furnitureScale : Q;
  furniturePosition : Point
}.

Definition initialState : State :=
  {| furnitureScale := 1; furniturePosition := {| px := 50; py := 50 |} |}.

Definition checkFit (selectedFurniture : option FurnitureModel)
    (roomDimensions : Dimensions) (st : State) : bool :=
  match selectedFurniture with
  | None => true
  | Some selected =>
      let scaledWidth := width (dimensions selected) * furnitureScale st in
      let scaledDepth := depth (dimensions selected) * furnitureScale st in
      (scaledWidth <=? width roomDimensions) &&
      (scaledDepth <=? depth roomDimensions)
  end.

Definition adjustScale (increase : bool) (st : State) : State :=
  let prev := furnitureScale st in
  let newScale := if increase then prev * 1.1 else prev * 0.9 in
  {| furnitureScale := JS.Math_max 0.1 (JS.Math_min 3 newScale);
     furniturePosition := furniturePosition st |}.

Definition moveFurniture (direction : Direction) (st : State) : State :=
  let step := 10 in
  let prev := furniturePosition st in
  {| furnitureScale := furnitureScale st;
     furniturePosition :=
       match direction with
       | left => {| px := JS.Math_max 0 (px prev - step); py := py prev |}
       | right => {| px := JS.Math_min 100 (px prev + step); py := py prev |}
       | up => {| px := px prev; py := JS.Math_max 0 (py prev - step) |}
       | down => {| px := px prev; py := JS.Math_min 100 (py prev + step) |}
       end |}.

End CameraARViewer.

(** ** SmartARViewer *)

Module SmartARViewer.
Section Window.

Variables screenWidth screenHeight : Q.

Record State := {
  furnitureScale : Q;
  furniturePosition : Point;
  isPlaced : bool
}.

Definition initialState : State :=
  {| furnitureScale := 0.3;
     furniturePosition := {| px := screenWidth / 2; py := screenHeight / 2 |};
     isPlaced := false |}.

(** The zones the effect installs. *)
Definition zones : list Box :=
  [ {| box_x := screenWidth * 0.35; box_y := screenHeight * 0.2;
       box_width := screenWidth * 0.3; box_height := screenHeight * 0.25 |} ].

Fixpoint checkCollision (obstacleZones : list Box)
    (furnitureX furnitureY furnitureW furnitureH : Q) : bool :=
  match obstacleZones with
  | [] => false
  | zone :: rest =>
      let furnitureLeft := furnitureX - furnitureW / 2 in
      let furnitureRight := furnitureX + furnitureW / 2 in
      let furnitureTop := furnitureY - furnitureH / 2 in
      let furnitureBottom := furnitureY + furnitureH / 2 in
      let zoneRight := box_x zone + box_width zone in
      let zoneBottom := box_y zone + box_height zone in
      if overlaps furnitureLeft furnitureRight furnitureTop furnitureBottom
           (box_x zone) zoneRight (box_y zone) zoneBottom
      then true
      else checkCollision rest furnitureX furnitureY furnitureW furnitureH
  end.

Definition checkFit (selectedFurniture : option FurnitureModel)
    (obstacleZones : list Box) (st : State) : bool :=
  match selectedFurniture with
  | None => true
  | Some selected =>
      let furnitureWidth := width (dimensions selected) * furnitureScale st in
      let furnitureHeight := height (dimensions selected) * furnitureScale st in
      let position := furniturePosition st in
      let hasCollision :=
        checkCollision obstacleZones (px position) (py position)
          furnitureWidth furnitureHeight in
      let withinBounds :=
        (px position >? furnitureWidth / 2) &&
        (px position <? screenWidth - furnitureWidth / 2) &&
        (py position >? furnitureHeight / 2) &&
        (py position <? screenHeight - furnitureHeight / 2) in
      let reasonableSize :=
        (furnitureWidth <? screenWidth * 0.6) &&
        (furnitureHeight <? screenHeight * 0.4) in
      negb hasCollision && withinBounds && reasonableSize
  end.

(** [onPanResponderMove], with the pointer at [(moveX, moveY)]. *)
Definition onPanResponderMove (moveX moveY : Q) (st : State) : State :=
  {| furnitureScale := furnitureScale st;
     furniturePosition := {| px := moveX; py := moveY |};
     isPlaced := true |}.

Definition onPanResponderRelease (st : State) : State :=
  {| furnitureScale := furnitureScale st;
     furniturePosition := furniturePosition st;
     isPlaced := true |}.

Definition adjustScale (increase : bool) (st : State) : State :=
  let prev := furnitureScale st in
  let newScale := if increase then prev * 1.2 else prev * 0.8 in
  {| furnitureScale := JS.Math_max 0.1 (JS.Math_min 1.5 newScale);
     furniturePosition := furniturePosition st;
     isPlaced := isPlaced st |}.

Definition resetPlacement (st : State) : State :=
  {| furnitureScale := 0.3;
     furniturePosition :=
       {| px := screenWidth / 2; py := screenHeight * 0.7 |};
     isPlaced := false |}.

(** The gestures and buttons that change the placement. *)
Inductive Action :=
| Move (moveX moveY : Q)
| Released
| Adjust (increase : bool)
| ResetPlacement.

Definition step (st : State) (a : Action) : State :=
  match a with
  | Move moveX moveY => onPanResponderMove moveX moveY st
  | Released => onPanResponderRelease st
  | Adjust increase => adjustScale increase st
  | ResetPlacement => resetPlacement st
  end.

Definition run (actions : list Action) (st : State) : State :=
  fold_left step actions st.

End Window.
End SmartARViewer.

(** ** RealTimeARViewer (RealTimeARViewer.tsx) *)

Module RealTimeARViewer.

Inductive RegionType := obstacle | clear.

Record DetectedRegion := {
  region_x : Q;
  region_y : Q;
  region_width : Q;
  region_height : Q;
  region_type : RegionType;
  region_confidence : Q
}.

Record CollisionResult := { collision : bool; confidence : Q }.

Record FitResult := { fits : bool; reason : string }.

Record State := {
  furnitureScale : Q;
  furniturePosition : Point
}.

Section Window.

Variables screenWidth screenHeight : Q.

Definition initialState : State :=
  {| furnitureScale := 0.4;
     furniturePosition :=
       {| px := screenWidth / 2; py := screenHeight * 0.7 |} |}.

Definition performSimpleDetection : list DetectedRegion :=
  [ {| region_x := screenWidth * 0.25; region_y := screenHeight * 0.25;
       region_width := screenWidth * 0.5; region_height := screenHeight * 0.4;
       region_type := obstacle; region_confidence := 0.6 |};
    {| region_x := 0; region_y := screenHeight * 0.7;
       region_width := screenWidth; region_height := screenHeight * 0.3;
       region_type := clear; region_confidence := 0.8 |} ].

Fixpoint checkCollision (detectedRegions : list DetectedRegion)
    (furnitureX furnitureY furnitureW furnitureH : Q) : CollisionResult :=
  let furnitureLeft := furnitureX - furnitureW / 2 in
  let furnitureRight := furnitureX + furnitureW / 2 in
  let furnitureTop := furnitureY - furnitureH / 2 in
  let furnitureBottom := furnitureY + furnitureH / 2 in
  match detectedRegions with
  | [] => {| collision := false; confidence := 0 |}
  | region :: rest =>
      match region_type region with
      | clear =>
          checkCollision rest furnitureX furnitureY furnitureW furnitureH
      | obstacle =>
          let regionRight := region_x region + region_width region in
          let regionBottom := region_y region + region_height region in
          if overlaps furnitureLeft furnitureRight furnitureTop
               furnitureBottom
               (region_x region) regionRight (region_y region) regionBottom
             && (region_confidence region >? 0.5)
          then {| collision := true;
                  confidence := region_confidence region |}
          else checkCollision rest furnitureX furnitureY furnitureW furnitureH
      end
  end.

Definition checkFit (selectedFurniture : option FurnitureModel)
    (detectedRegions : list DetectedRegion) (st : State) : FitResult :=
  match selectedFurniture with
  | None => {| fits := true; reason := EmptyString |}
  | Some selected =>
      let furnitureWidth := width (dimensions selected) * furnitureScale st in
      let furnitureHeight := height (dimensions selected) * furnitureScale st in
      let position := furniturePosition st in
      let collisionResult :=
        checkCollision detectedRegions (px position) (py position)
          furnitureWidth furnitureHeight in
      if collision collisionResult then
        {| fits := false;
           reason := ("Obstacle detected (" ++
             JS.show (JS.Math_round (confidence collisionResult * 100)) ++
             "% confidence)")%string |}
      else
        let inClearZone :=
          existsb (fun region =>
            match region_type region with
            | obstacle => false
            | clear =>
                (px position >=? region_x region) &&
                (px position <=? region_x region + region_width region) &&
                (py position >=? region_y region) &&
                (py position <=? region_y region + region_height region)
            end) detectedRegions in
        if inClearZone then
          {| fits := true; reason := "Clear floor space detected" |}
        else
          {| fits := true; reason := "Space appears clear" |}
  end.

Definition onPanResponderMove (moveX moveY : Q) (st : State) : State :=
  {| furnitureScale := furnitureScale st;
     furniturePosition := {| px := moveX; py := moveY |} |}.

Definition adjustScale (increase : bool) (st : State) : State :=
  let prev := furnitureScale st in
  let newScale := if increase then prev * 1.2 else prev * 0.8 in
  {| furnitureScale := JS.Math_max 0.1 (JS.Math_min 1.5 newScale);
     furniturePosition := furniturePosition st |}.

Definition resetPlacement (st : State) : State :=
  {| furnitureScale := 0.4;
     furniturePosition :=
       {| px := screenWidth / 2; py := screenHeight * 0.7 |} |}.

Inductive Action :=
| Move (moveX moveY : Q)
| Adjust (increase : bool)
| ResetPlacement.

Definition step (st : State) (a : Action) : State :=
  match a with
  | Move moveX moveY => onPanResponderMove moveX moveY st
  | Adjust increase => adjustScale increase st
  | ResetPlacement => resetPlacement st
  end.

Definition run (actions : list Action) (st : State) : State :=
  fold_left step actions st.

(** The body of the two loops of [detectObstaclesInImage] over the cells
    still to visit; [random n] is what the [n]-th call of [Math.random]
    returns and [next] counts the calls made so far. *)
Fixpoint scanCells (random : nat -> Q) (cells : list (nat * nat)) (next : nat)
    : list DetectedRegion :=
  let gridSize := 4 in
  let cellWidth := screenWidth / gridSize in
  let cellHeight := screenHeight / gridSize in
  match cells with
  | [] => []
  | (row, col) :: rest =>
      let x := inject_Z (Z.of_nat col) * cellWidth in
      let y := inject_Z (Z.of_nat row) * cellHeight in
      let isCenterRegion :=
        ((row =? 1)%nat || (row =? 2)%nat)
        && ((col =? 1)%nat || (col =? 2)%nat) in
      let isBottomRegion := (row =? 3)%nat in
      if isCenterRegion then
        if random next >? 0.3 then
          {| region_x := x; region_y := y;
             region_width := cellWidth; region_height := cellHeight;
             region_type := obstacle;
             region_confidence := 0.7 + random (S next) * 0.3 |}
          :: scanCells random rest (S (S next))
        else scanCells random rest (S next)
      else if isBottomRegion then
        {| region_x := x; region_y := y;
           region_width := cellWidth; region_height := cellHeight;
           region_type := clear; region_confidence := 0.8 |}
        :: scanCells random rest next
      else scanCells random rest next
  end.

(** [detectObstaclesInImage]: the image is not read; the grid is visited
    row by row. *)
Definition detectObstaclesInImage (random : nat -> Q) : list DetectedRegion :=
  scanCells random (list_prod (seq 0 4) (seq 0 4)) 0.

End Window.
End RealTimeARViewer.

(** ** ImageARViewer (RealTimeARViewer.tsx) *)

Module ImageARViewer.

Record State := {
  furnitureScale : Q;
  furniturePosition : Point;
  isPlaced : bool;
  spaceDetected : bool
}.

Section Window.

Variables screenWidth screenHeight : Q.

Definition initialState : State :=
  {| furnitureScale := 0.5;
     furniturePosition := {| px := screenWidth / 2; py := screenHeight / 2 |};
     isPlaced := false;
     spaceDetected := true |}.

Definition checkFit (selectedFurniture : option FurnitureModel)
    (st : State) : bool :=
  match selectedFurniture with
  | None => true
  | Some selected =>
      let furnitureWidth := width (dimensions selected) * furnitureScale st in
      let furnitureHeight := height (dimensions selected) * furnitureScale st in
      let position := furniturePosition st in
      let withinBounds :=
        (px position >? 50) &&
        (px position <? screenWidth - 50) &&
        (py position >? 100) &&
        (py position <? screenHeight - 200) in
      let reasonableSize :=
        (furnitureWidth <? screenWidth * 0.8) &&
        (furnitureHeight <? screenHeight * 0.5) in
      withinBounds && reasonableSize && spaceDetected st
  end.

Definition adjustScale (increase : bool) (st : State) : State :=
  let prev := furnitureScale st in
  let newScale := if increase then prev * 1.2 else prev * 0.8 in
  {| furnitureScale := JS.Math_max 0.1 (JS.Math_min 2 newScale);
     furniturePosition := furniturePosition st;
     isPlaced := isPlaced st;
     spaceDetected := spaceDetected st |}.

Definition resetPlacement (st : State) : State :=
  {| furnitureScale := 0.5;
     furniturePosition := {| px := screenWidth / 2; py := screenHeight / 2 |};
     isPlaced := false;
     spaceDetected := spaceDetected st |}.

End Window.
End ImageARViewer.

(** ** CloudVisionARViewer (CloudVisionARViewer.tsx) *)

Module CloudVisionARViewer.

Record DetectedObject := {
  label : string;
  object_confidence : Q;
  boundingBox : Box
}.

Record CollisionResult := {
  collision : bool;
  object : option string;
  confidence : Q
}.

Record FitResult := { fits : bool; reason : string; detail : string }.

Record State := {
  furnitureScale : Q;
  furniturePosition : Point
}.

Section Window.

Variables screenWidth screenHeight : Q.

Definition initialState : State :=
  {| furnitureScale := 0.4;
     furniturePosition :=
       {| px := screenWidth / 2; py := screenHeight * 0.7 |} |}.

(** The loop of [checkCollision]: the first object that is not the floor
    and overlaps the furniture rectangle. *)
Fixpoint firstOverlap (detectedObjects : list DetectedObject)
    (furnitureLeft furnitureRight furnitureTop furnitureBottom : Q)
    : option DetectedObject :=
  match detectedObjects with
  | [] => None
  | obj :: rest =>
      if (label obj =? "floor")%string then
        firstOverlap rest furnitureLeft furnitureRight furnitureTop
          furnitureBottom
      else
        let box := boundingBox obj in
        let objRight := box_x box + box_width box in
        let objBottom := box_y box + box_height box in
        if overlaps furnitureLeft furnitureRight furnitureTop furnitureBottom
             (box_x box) objRight (box_y box) objBottom
        then Some obj
        else firstOverlap rest furnitureLeft furnitureRight furnitureTop
               furnitureBottom
  end.

Definition checkCollision (detectedObjects : list DetectedObject)
    (furnitureX furnitureY furnitureW furnitureH : Q) : CollisionResult :=
  let furnitureLeft := furnitureX - furnitureW / 2 in
  let furnitureRight := furnitureX + furnitureW / 2 in
  let furnitureTop := furnitureY - furnitureH / 2 in
  let furnitureBottom := furnitureY + furnitureH / 2 in
  match firstOverlap detectedObjects furnitureLeft furnitureRight
          furnitureTop furnitureBottom with
  | Some obj =>
      {| collision := true; object := Some (label obj);
         confidence := object_confidence obj |}
  | None =>
      let floorObj :=
        find (fun o => (label o =? "floor")%string) detectedObjects in
      match floorObj with
      | Some floor =>
          let box := boundingBox floor in
          if (furnitureY >=? box_y box) &&
             (furnitureY <=? box_y box + box_height box)
          then {| collision := false; object := Some "floor"%string;
                  confidence := 1 |}
          else {| collision := false; object := None; confidence := 0 |}
      | None => {| collision := false; object := None; confidence := 0 |}
      end
  end.

Definition checkFit (selectedFurniture : option FurnitureModel)
    (detectedObjects : list DetectedObject) (st : State) : FitResult :=
  match selectedFurniture with
  | None => {| fits := true; reason := EmptyString; detail := EmptyString |}
  | Some selected =>
      let furnitureWidth := width (dimensions selected) * furnitureScale st in
      let furnitureHeight := height (dimensions selected) * furnitureScale st in
      let position := furniturePosition st in
      let collisionResult :=
        checkCollision detectedObjects (px position) (py position)
          furnitureWidth furnitureHeight in
      if collision collisionResult then
        {| fits := false;
           reason :=
             ("Blocked by " ++ JS.show_nullable (object collisionResult))%string;
           detail :=
             ("(" ++
              JS.show (JS.Math_round (confidence collisionResult * 100)) ++
              "% confidence)")%string |}
      else
        match object collisionResult with
        | Some "floor"%string =>
            {| fits := true; reason := "Clear floor space";
               detail := "Safe to place here" |}
        | _ =>
            {| fits := true; reason := "Space appears clear";
               detail := "No obstacles detected" |}
        end
  end.

Definition onPanResponderMove (moveX moveY : Q) (st : State) : State :=
  {| furnitureScale := furnitureScale st;
     furniturePosition := {| px := moveX; py := moveY |} |}.

Definition adjustScale (increase : bool) (st : State) : State :=
  let prev := furnitureScale st in
  let newScale := if increase then prev * 1.2 else prev * 0.8 in
  {| furnitureScale := JS.Math_max 0.1 (JS.Math_min 1.5 newScale);
     furniturePosition := furniturePosition st |}.

Definition resetPlacement (st : State) : State :=
  {| furnitureScale := 0.4;
     furniturePosition :=
       {| px := screenWidth / 2; py := screenHeight * 0.75 |} |}.

Inductive Action :=
| Move (moveX moveY : Q)
| Adjust (increase : bool)
| ResetPlacement.

Definition step (st : State) (a : Action) : State :=
  match a with
  | Move moveX moveY => onPanResponderMove moveX moveY st
  | Adjust increase => adjustScale increase st
  | ResetPlacement => resetPlacement st
  end.

Definition run (actions : list Action) (st : State) : State :=
  fold_left step actions st.

(** [simulateObjectDetection]; [random n] is what the [n]-th call of
    [Math.random] returns. *)
Definition simulateObjectDetection (random : nat -> Q) : list DetectedObject :=
  let rand := random 0%nat in
  let '(objects, next) :=
    if rand >? 0.3 then
      ([ {| label := "person";
            object_confidence := 0.85 + random 1%nat * 0.15;
            boundingBox :=
              {| box_x := screenWidth * (0.2 + random 2%nat * 0.2);
                 box_y := screenHeight * (0.15 + random 3%nat * 0.1);
                 box_width := screenWidth * (0.3 + random 4%nat * 0.2);
                 box_height := screenHeight * (0.4 + random 5%nat * 0.1) |} |} ],
       6%nat)
    else ([], 1%nat) in
  let objects :=
    if random next >? 0.5 then
      objects ++
      [ {| label := "chair";
           object_confidence := 0.7 + random (next + 1)%nat * 0.2;
           boundingBox :=
             {| box_x := screenWidth * (0.6 + random (next + 2)%nat * 0.2);
                box_y := screenHeight * (0.4 + random (next + 3)%nat * 0.1);
                box_width := screenWidth * 0.2;
                box_height := screenHeight * 0.25 |} |} ]
    else objects in
  objects ++
  [ {| label := "floor";
       object_confidence := 0.95;
       boundingBox :=
         {| box_x := 0; box_y := screenHeight * 0.75;
            box_width := screenWidth; box_height := screenHeight * 0.25 |} |} ].

End Window.
End CloudVisionARViewer.

(** ** AIARViewer (FurnitureSelector.tsx) *)

Module AIARViewer.

(** [{class, bbox}]; [bbox] is the detector's [[x, y, width, height]]. *)
Record DetectedObject := {
  class : string;
  bbox : Box
}.

Record CollisionResult := {
  collision : bool;
  objectType : option string
}.

Record FitResult := { fits : bool; reason : string }.

Record State := {
  furnitureScale : Q;
  furniturePosition : Point
}.

Section Window.

Variables screenWidth screenHeight : Q.

Definition initialState : State :=
  {| furnitureScale := 0.4;
     furniturePosition :=
       {| px := screenWidth / 2; py := screenHeight * 0.7 |} |}.

Definition simulateObjectDetection : list DetectedObject :=
  [ {| class := "person";
       bbox := {| box_x := screenWidth * 0.2; box_y := screenHeight * 0.2;
                  box_width := screenWidth * 0.6;
                  box_height := screenHeight * 0.5 |} |} ].

Fixpoint checkCollision (detectedObjects : list DetectedObject)
    (furnitureX furnitureY furnitureW furnitureH : Q) : CollisionResult :=
  let furnitureLeft := furnitureX - furnitureW / 2 in
  let furnitureRight := furnitureX + furnitureW / 2 in
  let furnitureTop := furnitureY - furnitureH / 2 in
  let furnitureBottom := furnitureY + furnitureH / 2 in
  match detectedObjects with
  | [] => {| collision := false; objectType := None |}
  | obj :: rest =>
      let objX := box_x (bbox obj) in
      let objY := box_y (bbox obj) in
      let objWidth := box_width (bbox obj) in
      let objHeight := box_height (bbox obj) in
      let objRight := objX + objWidth in
      let objBottom := objY + objHeight in
      if overlaps furnitureLeft furnitureRight furnitureTop furnitureBottom
           objX objRight objY objBottom
      then {| collision := true; objectType := Some (class obj) |}
      else checkCollision rest furnitureX furnitureY furnitureW furnitureH
  end.

Definition checkFit (selectedFurniture : option FurnitureModel)
    (detectedObjects : list DetectedObject) (st : State) : FitResult :=
  match selectedFurniture with
  | None => {| fits := true; reason := EmptyString |}
  | Some selected =>
      let furnitureWidth := width (dimensions selected) * furnitureScale st in
      let furnitureHeight := height (dimensions selected) * furnitureScale st in
      let position := furniturePosition st in
      let collisionResult :=
        checkCollision detectedObjects (px position) (py position)
          furnitureWidth furnitureHeight in
      let withinBounds :=
        (px position >? furnitureWidth / 2) &&
        (px position <? screenWidth - furnitureWidth / 2) &&
        (py position >? furnitureHeight / 2) &&
        (py position <? screenHeight - furnitureHeight / 2) in
      if collision collisionResult then
        {| fits := false;
           reason :=
             ("Blocked by " ++
              JS.show_nullable (objectType collisionResult))%string |}
      else if negb withinBounds then
        {| fits := false; reason := "Out of bounds" |}
      else
        {| fits := true; reason := "Clear space detected" |}
  end.

Definition adjustScale (increase : bool) (st : State) : State :=
  let prev := furnitureScale st in
  let newScale := if increase then prev * 1.2 else prev * 0.8 in
  {| furnitureScale := JS.Math_max 0.1 (JS.Math_min 1.5 newScale);
     furniturePosition := furniturePosition st |}.

Definition resetPlacement (st : State) : State :=
  {| furnitureScale := 0.4;
     furniturePosition :=
       {| px := screenWidth / 2; py := screenHeight * 0.7 |} |}.

Definition onPanResponderMove (moveX moveY : Q) (st : State) : State :=
  {| furnitureScale := furnitureScale st;
     furniturePosition := {| px := moveX; py := moveY |} |}.

End Window.
End AIARViewer.

(** ** FurnitureSelector (FurnitureSelector.tsx) *)

Module FurnitureSelector.

(** The three text inputs. *)
Record CustomDimensions := {
  width_text : string;
  height_text : string;
  depth_text : string
}.

Definition initialCustomDimensions : CustomDimensions :=
  {| width_text := "100"; height_text := "100"; depth_text := "50" |}.

(** The [placeholder] of each text input. *)
Definition placeholder : CustomDimensions :=
  {| width_text := "100"; height_text := "100"; depth_text := "50" |}.

(** [createCustomFurniture]: nothing is selected while no image is
    uploaded ([null] or the empty string); otherwise the arguments of
    [onSelectFurniture]. *)
Definition createCustomFurniture (uploadedImage : option string)
    (customDimensions : CustomDimensions)
    : option (FurnitureModelOf JS.value * string) :=
  match uploadedImage with
  | None | Some EmptyString => None
  | Some image =>
      let customFurniture :=
        {| id := "custom-1";
           name := "Custom Furniture";
           type := sofa;
           dimensions :=
             {| width :=
                  JS.or (JS.parseFloat (width_text customDimensions))
                        (JS.Num 100);
                height :=
                  JS.or (JS.parseFloat (height_text customDimensions))
                        (JS.Num 100);
                depth :=
                  JS.or (JS.parseFloat (depth_text customDimensions))
                        (JS.Num 100) |};
           color := "#4B0082" |} in
      Some (customFurniture, image)
  end.

End FurnitureSelector.

(** ** ARViewer, the 3-D viewer (ARViewer.tsx) *)

Module ARViewer.

Inductive Direction := left | right | forward | backward | up | down.

Record State := {
  furniturePosition : Vector3;
  fits : bool
}.

Definition initialState : State :=
  {| furniturePosition := {| vx := 0; vy := 0; vz := -2 |}; fits := true |}.

(** The state updater of [moveFurniture]. *)
Definition moved (direction : Direction) (prev : Vector3) : Vector3 :=
  let step := 0.2 in
  match direction with
  | left => {| vx := vx prev - step; vy := vy prev; vz := vz prev |}
  | right => {| vx := vx prev + step; vy := vy prev; vz := vz prev |}
  | forward => {| vx := vx prev; vy := vy prev; vz := vz prev - step |}
  | backward => {| vx := vx prev; vy := vy prev; vz := vz prev + step |}
  | up => {| vx := vx prev; vy := vy prev + step; vz := vz prev |}
  | down =>
      {| vx := vx prev; vy := JS.Math_max 0 (vy prev - step); vz := vz prev |}
  end.

Definition moveFurniture (direction : Direction) (st : State) : State :=
  {| furniturePosition := moved direction (furniturePosition st);
     fits := fits st |}.

(** The effect that follows a change of the position, of the selection or
    of the room: the flag is written only while an item is selected. *)
Definition fitEffect (selectedFurniture : option FurnitureModel)
    (roomDimensions : Dimensions) (st : State) : State :=
  match selectedFurniture with
  | Some selected =>
      {| furniturePosition := furniturePosition st;
         fits := FurnitureModels.checkFit selected (furniturePosition st)
                   roomDimensions |}
  | None => st
  end.

(** A press on a direction button, with the effect it triggers. *)
Definition press (selectedFurniture : option FurnitureModel)
    (roomDimensions : Dimensions) (st : State) (direction : Direction)
    : State :=
  fitEffect selectedFurniture roomDimensions (moveFurniture direction st).

End ARViewer.

(** ** App (App.tsx) *)

Module App.
Section Furniture.

(** The furniture handed over by the selector. *)
Variable Furniture : Type.

Record State := {
  selectedFurniture : option Furniture;
  furnitureImage : option string;
  showAR : bool
}.

Definition initialState : State :=
  {| selectedFurniture := None; furnitureImage := None; showAR := false |}.

Definition handleSelectFurniture (furniture : Furniture)
    (image : option string) (st : State) : State :=
  {| selectedFurniture := Some furniture;
     furnitureImage := image;
     showAR := true |}.

Definition handleBack (st : State) : State :=
  {| selectedFurniture := None; furnitureImage := None; showAR := false |}.

(** What the selector ([onSelectFurniture]) and the viewer ([onBack])
    call back. *)
Inductive Event :=
| Select (furniture : Furniture) (image : option string)
| GoBack.

Definition handle (st : State) (e : Event) : State :=
  match e with
  | Select furniture image => handleSelectFurniture furniture image st
  | GoBack => handleBack st
  end.

Definition run (events : list Event) (st : State) : State :=
  fold_left handle events st.

End Furniture.
End App.

(** ** Concrete inputs of the examples

    A window of 400 by 800 throughout. *)

Module Scenario.

(** A detection that covers the whole window. *)
Definition wholeWindow : Box :=
  {| box_x := 0; box_y := 0; box_width := 400; box_height := 800 |}.

Definition cloudPerson : CloudVisionARViewer.DetectedObject :=
  {| CloudVisionARViewer.label := "person";
     CloudVisionARViewer.object_confidence := 0.9;
     CloudVisionARViewer.boundingBox := wholeWindow |}.

Definition aiPerson : AIARViewer.DetectedObject :=
  {| AIARViewer.class := "person"; AIARViewer.bbox := wholeWindow |}.

(** The coffee table at half size, 60 by 22.5, low in the window and well
    inside it. *)
Definition cloudPlacement : CloudVisionARViewer.State :=
  {| CloudVisionARViewer.furnitureScale := 0.5;
     CloudVisionARViewer.furniturePosition := {| px := 200; py := 560 |} |}.

Definition aiPlacement : AIARViewer.State :=
  {| AIARViewer.furnitureScale := 0.5;
     AIARViewer.furniturePosition := {| px := 200; py := 560 |} |}.

(** A chair detected with confidence 0.4 around the placement. *)
Definition weakChair : CloudVisionARViewer.DetectedObject :=
  {| CloudVisionARViewer.label := "chair";
     CloudVisionARViewer.object_confidence := 0.4;
     CloudVisionARViewer.boundingBox :=
       {| box_x := 100; box_y := 500; box_width := 200; box_height := 100 |} |}.

(** The same detection as an obstacle region of RealTimeARViewer. *)
Definition weakRegion : RealTimeARViewer.DetectedRegion :=
  {| RealTimeARViewer.region_x := 100; RealTimeARViewer.region_y := 500;
     RealTimeARViewer.region_width := 200;
     RealTimeARViewer.region_height := 100;
     RealTimeARViewer.region_type := RealTimeARViewer.obstacle;
     RealTimeARViewer.region_confidence := 0.4 |}.

Definition realTimePlacement : RealTimeARViewer.State :=
  {| RealTimeARViewer.furnitureScale := 0.5;
     RealTimeARViewer.furniturePosition := {| px := 200; py := 560 |} |}.

(** A zone whose left edge, at 100, is the right edge of a 100 by 100
    rectangle centred at (50, 50); the two share that edge and nothing
    else. *)
Definition touchingZone : Box :=
  {| box_x := 100; box_y := 0; box_width := 50; box_height := 100 |}.

Definition touchingRegion : RealTimeARViewer.DetectedRegion :=
  {| RealTimeARViewer.region_x := 100; RealTimeARViewer.region_y := 0;
     RealTimeARViewer.region_width := 50;
     RealTimeARViewer.region_height := 100;
     RealTimeARViewer.region_type := RealTimeARViewer.obstacle;
     RealTimeARViewer.region_confidence := 0.9 |}.

(** A zone around the point (10, 10). *)
Definition cornerZone : Box :=
  {| box_x := 0; box_y := 0; box_width := 20; box_height := 20 |}.

Definition smartAt (scale : Q) : SmartARViewer.State :=
  {| SmartARViewer.furnitureScale := scale;
     SmartARViewer.furniturePosition := {| px := 200; py := 400 |};
     SmartARViewer.isPlaced := false |}.

Definition simpleAt (scale : Q) : SimpleARViewer.State :=
  {| SimpleARViewer.furnitureScale := scale;
     SimpleARViewer.furniturePosition := {| px := 50; py := 50 |} |}.

Definition cloudAt (scale : Q) : CloudVisionARViewer.State :=
  {| CloudVisionARViewer.furnitureScale := scale;
     CloudVisionARViewer.furniturePosition := {| px := 200; py := 400 |} |}.

(** The form with a word for the width and the other two fields empty. *)
Definition unreadableForm : FurnitureSelector.CustomDimensions :=
  {| FurnitureSelector.width_text := "wide";
     FurnitureSelector.height_text := EmptyString;
     FurnitureSelector.depth_text := EmptyString |}.




(** The draws of a sequence that always returns the same number. *)
Definition always (r : Q) : nat -> Q := fun _ => r.

Definition aiInitial : AIARViewer.State := AIARViewer.initialState 400 800.


Definition realTimeOnFloor : RealTimeARViewer.State :=
  {| RealTimeARViewer.furnitureScale := 0.4;
     RealTimeARViewer.furniturePosition := {| px := 200; py := 700 |} |}.


Definition smallRoom : Dimensions :=
  {| width := 300; height := 250; depth := 400 |}.

End Scenario.

(** * Properties *)

(** ** Comparisons *)

Lemma ltb_true (a b : Q) : (a <? b) = true <-> a < b.
Proof.
  unfold JS.ltb. rewrite Qlt_alt.
  destruct (a ?= b); split; intro H; congruence.
Qed.

Lemma ltb_false (a b : Q) : (a <? b) = false <-> b <= a.
Proof.
  rewrite <- not_true_iff_false, ltb_true. split.
  - apply Qnot_lt_le.
  - intros H1 H2. apply (Qlt_not_le _ _ H2 H1).
Qed.

Lemma leb_true (a b : Q) : (a <=? b) = true <-> a <= b.
Proof. apply Qle_bool_iff. Qed.

Lemma leb_false (a b : Q) : (a <=? b) = false <-> b < a.
Proof.
  rewrite <- not_true_iff_false, leb_true. split.
  - apply Qnot_le_lt.
  - intros H1 H2. apply (Qlt_not_le _ _ H1 H2).
Qed.

Lemma gtb_true (a b : Q) : (a >? b) = true <-> b < a.
Proof. apply ltb_true. Qed.

Lemma gtb_false (a b : Q) : (a >? b) = false <-> a <= b.
Proof. apply ltb_false. Qed.

Lemma geb_true (a b : Q) : (a >=? b) = true <-> b <= a.
Proof. apply leb_true. Qed.

(** Halving, and the divisions of the room model, as products, for [lra]. *)
Ltac q_div :=
  unfold Qdiv in *;
  change (/ 2) with (1 # 2) in *;
  change (/ 100) with (1 # 100) in *;
  change (/ 200) with (1 # 200) in *.

(** Closed comparisons of rationals, by evaluation. *)
Ltac q_closed :=
  solve [ reflexivity
        | apply Qle_bool_iff; reflexivity
        | vm_compute; reflexivity
        | split; q_closed ].

(** ** The 3-D room check *)


(** The bookshelf, 180 high, passes in a room 90 high. *)
Example bookshelf_in_a_low_room :
  FurnitureModels.checkFit shelf_1 {| vx := 0; vy := 0; vz := 0 |}
    {| width := 300; height := 90; depth := 300 |} = true
  /\ FurnitureModels.checkFit shelf_1 {| vx := 0; vy := 0; vz := 0 |}
    {| width := 300; height := 89; depth := 300 |} = false.
Proof. split; reflexivity. Qed.

(** ** The room-dimension check *)


(** The dining table in a room 160 wide and 100 deep: it fits as it is,
    and at one and a half times its size its width, 240, does not. *)
Example dining_table_scaled_up :
  SimpleARViewer.checkFit (Some table_1)
    {| width := 160; height := 240; depth := 100 |} (Scenario.simpleAt 1)
  = true
  /\ SimpleARViewer.checkFit (Some table_1)
    {| width := 160; height := 240; depth := 100 |} (Scenario.simpleAt 1.5)
  = false.
Proof. split; reflexivity. Qed.

(** ** No item selected *)

(** C6: with no item selected the verdict is [true] with an empty reason,
    whatever the placement, the scale and the detected regions; SmartARViewer
    answers with the bare [true]. *)
Theorem no_selection_fits_vacuously :
  (forall detectedRegions st,
     RealTimeARViewer.checkFit None detectedRegions st
     = {| RealTimeARViewer.fits := true; RealTimeARViewer.reason := EmptyString |})
  /\ (forall detectedObjects st,
     CloudVisionARViewer.checkFit None detectedObjects st
     = {| CloudVisionARViewer.fits := true;
          CloudVisionARViewer.reason := EmptyString;
          CloudVisionARViewer.detail := EmptyString |})
  /\ (forall screenWidth screenHeight obstacleZones st,
     SmartARViewer.checkFit screenWidth screenHeight None obstacleZones st
     = true).
Proof. repeat split. Qed.

(** ** The overlap test *)

Lemma overlaps_true (fl fr ft fb x zr y zb : Q) :
  overlaps fl fr ft fb x zr y zb = true
  <-> x <= fr /\ fl <= zr /\ y <= fb /\ ft <= zb.
Proof.
  unfold overlaps.
  rewrite negb_true_iff, !orb_false_iff, !ltb_false, !gtb_false.
  tauto.
Qed.

Lemma smart_checkCollision_true (obstacleZones : list Box) (x y w h : Q) :
  SmartARViewer.checkCollision obstacleZones x y w h = true
  <-> Exists (fun zone =>
        meets x y w h (box_x zone) (box_y zone)
          (box_width zone) (box_height zone)) obstacleZones.
Proof.
  induction obstacleZones as [|zone rest IH]; simpl.
  - split; [discriminate | intro H; inversion H].
  - rewrite Exists_cons, <- IH.
    destruct (overlaps _ _ _ _ _ _ _ _) eqn:E.
    + apply overlaps_true in E. unfold meets. tauto.
    + split; [tauto |]. intros [H | H]; [| exact H].
      apply overlaps_true in H. congruence.
Qed.

Lemma realtime_checkCollision_true
    (detectedRegions : list RealTimeARViewer.DetectedRegion) (x y w h : Q) :
  RealTimeARViewer.collision
    (RealTimeARViewer.checkCollision detectedRegions x y w h) = true
  <-> Exists (fun region =>
        RealTimeARViewer.region_type region = RealTimeARViewer.obstacle
        /\ 0.5 < RealTimeARViewer.region_confidence region
        /\ meets x y w h
             (RealTimeARViewer.region_x region)
             (RealTimeARViewer.region_y region)
             (RealTimeARViewer.region_width region)
             (RealTimeARViewer.region_height region)) detectedRegions.
Proof.
  induction detectedRegions as [|region rest IH]; simpl.
  - split; [discriminate | intro H; inversion H].
  - rewrite Exists_cons, <- IH.
    destruct (RealTimeARViewer.region_type region).
    + destruct (overlaps _ _ _ _ _ _ _ _ && _) eqn:E; simpl.
      * apply andb_true_iff in E. destruct E as [E1 E2].
        apply overlaps_true in E1. apply gtb_true in E2.
        unfold meets. tauto.
      * split; [tauto |]. intros [(_ & H1 & H2) | H]; [| exact H].
        apply overlaps_true in H2. apply gtb_true in H1.
        rewrite H1, H2 in E. discriminate.
    + split; [tauto |]. intros [(H & _) | H]; [discriminate | exact H].
Qed.

(** C2, as the code has it: the collision queries of SmartARViewer and of
    RealTimeARViewer compare with non-strict inequalities, so a collision is
    reported exactly when the closed rectangles meet.  Rectangles that only
    share an edge, and a rectangle of zero width or height lying on or in
    another, are reported as overlapping. *)
Theorem collision_iff_closed_rectangles_meet :
  (forall (obstacleZones : list Box) (x y w h : Q),
     SmartARViewer.checkCollision obstacleZones x y w h = true
     <-> Exists (fun zone =>
           box_x zone <= x + w / 2 /\ x - w / 2 <= box_x zone + box_width zone /\
           box_y zone <= y + h / 2 /\ y - h / 2 <= box_y zone + box_height zone)
         obstacleZones)
  /\ (forall (detectedRegions : list RealTimeARViewer.DetectedRegion)
            (x y w h : Q),
     RealTimeARViewer.collision
       (RealTimeARViewer.checkCollision detectedRegions x y w h) = true
     <-> Exists (fun region =>
           RealTimeARViewer.region_type region = RealTimeARViewer.obstacle
           /\ 0.5 < RealTimeARViewer.region_confidence region
           /\ RealTimeARViewer.region_x region <= x + w / 2
           /\ x - w / 2 <= RealTimeARViewer.region_x region
                           + RealTimeARViewer.region_width region
           /\ RealTimeARViewer.region_y region <= y + h / 2
           /\ y - h / 2 <= RealTimeARViewer.region_y region
                           + RealTimeARViewer.region_height region)
         detectedRegions)
  /\ (forall (zone : Box) (rest : list Box) (x y w h : Q),
        x + w / 2 == box_x zone ->
        0 <= w -> 0 <= box_width zone ->
        box_y zone <= y + h / 2 -> y - h / 2 <= box_y zone + box_height zone ->
        SmartARViewer.checkCollision (zone :: rest) x y w h = true)
  /\ (forall (zone : Box) (rest : list Box) (x y : Q),
        box_x zone <= x <= box_x zone + box_width zone ->
        box_y zone <= y <= box_y zone + box_height zone ->
        SmartARViewer.checkCollision (zone :: rest) x y 0 0 = true).
Proof.
  split; [| split; [| split]].
  - intros. apply smart_checkCollision_true.
  - intros. apply realtime_checkCollision_true.
  - intros zone rest x y w h Hedge Hw Hzw Hy1 Hy2.
    apply smart_checkCollision_true, Exists_cons_hd.
    unfold meets. q_div. repeat split; lra.
  - intros zone rest x y [Hx1 Hx2] [Hy1 Hy2].
    apply smart_checkCollision_true, Exists_cons_hd.
    unfold meets. q_div. repeat split; lra.
Qed.

(** At the touching zone and at a rectangle of zero size inside a zone. *)
Lemma collision_iff_closed_rectangles_meet_witness :
  SmartARViewer.checkCollision [Scenario.touchingZone] 50 50 100 100 = true
  /\ SmartARViewer.checkCollision [Scenario.cornerZone] 10 10 0 0 = true.
Proof.
  destruct collision_iff_closed_rectangles_meet as (_ & _ & Htouch & Hflat).
  split.
  - apply Htouch; q_closed.
  - apply Hflat; q_closed.
Defined.

(** C2, as stated, fails: the furniture's right edge, 50 + 100 / 2, is the
    zone's left edge, the rectangles share that edge only, and a collision
    is reported by both viewers; so is one for a rectangle of zero width and
    height. *)
Lemma touching_edges_collide :
  50 + 100 / 2 == box_x Scenario.touchingZone
  /\ SmartARViewer.checkCollision [Scenario.touchingZone] 50 50 100 100 = true
  /\ RealTimeARViewer.collision
       (RealTimeARViewer.checkCollision [Scenario.touchingRegion]
          50 50 100 100) = true
  /\ SmartARViewer.checkCollision [Scenario.cornerZone] 10 10 0 0 = true.
Proof. repeat split. Qed.

(** ** Clamping of the scale *)

Lemma clamp_in_range (lo hi x : Q) :
  lo <= hi -> lo <= JS.Math_max lo (JS.Math_min hi x) <= hi.
Proof.
  intro Hle. unfold JS.Math_max, JS.Math_min. split.
  - apply Q.le_max_l.
  - apply Q.max_lub; [exact Hle | apply Q.le_min_l].
Qed.

(** Below the range the clamp returns the lower bound itself. *)
Lemma clamp_below (lo hi x : Q) :
  x < lo -> lo <= hi -> JS.Math_max lo (JS.Math_min hi x) = lo.
Proof.
  intros Hx Hle.
  assert (Hhi : x < hi) by (eapply Qlt_le_trans; eassumption).
  unfold JS.Math_max, JS.Math_min, Qmax, Qmin,
    GenericMinMax.gmax, GenericMinMax.gmin.
  apply Qgt_alt in Hhi. rewrite Hhi.
  apply Qgt_alt in Hx. rewrite Hx. reflexivity.
Qed.

Lemma simple_adjustScale_range (increase : bool) (st : SimpleARViewer.State) :
  0.1 <= SimpleARViewer.furnitureScale (SimpleARViewer.adjustScale increase st)
      <= 3.
Proof. apply clamp_in_range. q_closed. Qed.

Lemma smart_adjustScale_range (increase : bool) (st : SmartARViewer.State) :
  0.1 <= SmartARViewer.furnitureScale (SmartARViewer.adjustScale increase st)
      <= 1.5.
Proof. apply clamp_in_range. q_closed. Qed.

(** Once at the minimum, a decrease stays there. *)
Lemma smart_decrease_at_minimum (st : SmartARViewer.State) :
  SmartARViewer.furnitureScale st = 0.1 ->
  SmartARViewer.furnitureScale (SmartARViewer.adjustScale false st) = 0.1.
Proof.
  intro H. unfold SmartARViewer.adjustScale. simpl. rewrite H. reflexivity.
Qed.

Lemma smart_decreases_at_minimum (n : nat) (st : SmartARViewer.State) :
  SmartARViewer.furnitureScale st = 0.1 ->
  SmartARViewer.furnitureScale
    (fold_left (fun s increase => SmartARViewer.adjustScale increase s)
       (repeat false n) st) = 0.1.
Proof.
  revert st. induction n as [|n IH]; intros st H; simpl.
  - exact H.
  - apply IH, smart_decrease_at_minimum, H.
Qed.

(** C5: a scale inside the viewer's range stays inside it under any sequence
    of [adjustScale] calls ([0.1, 3] in SimpleARViewer, [0.1, 1.5] in
    SmartARViewer); from 1, eleven or more decreases by 0.8 give exactly the
    minimum 0.1, never less. *)
Theorem adjustScale_stays_clamped :
  (forall (calls : list bool) (st : SimpleARViewer.State),
     0.1 <= SimpleARViewer.furnitureScale st <= 3 ->
     0.1 <= SimpleARViewer.furnitureScale
              (fold_left (fun s increase => SimpleARViewer.adjustScale increase s)
                 calls st) <= 3)
  /\ (forall (calls : list bool) (st : SmartARViewer.State),
     0.1 <= SmartARViewer.furnitureScale st <= 1.5 ->
     0.1 <= SmartARViewer.furnitureScale
              (fold_left (fun s increase => SmartARViewer.adjustScale increase s)
                 calls st) <= 1.5)
  /\ (forall (n : nat) (position : Point) (placed : bool),
     (11 <= n)%nat ->
     SmartARViewer.furnitureScale
       (fold_left (fun s increase => SmartARViewer.adjustScale increase s)
          (repeat false n)
          {| SmartARViewer.furnitureScale := 1;
             SmartARViewer.furniturePosition := position;
             SmartARViewer.isPlaced := placed |}) = 0.1).
Proof.
  split; [| split].
  - induction calls as [|increase calls IH]; intros st H; simpl.
    + exact H.
    + apply IH, simple_adjustScale_range.
  - induction calls as [|increase calls IH]; intros st H; simpl.
    + exact H.
    + apply IH, smart_adjustScale_range.
  - intros n position placed Hn.
    replace n with (11 + (n - 11))%nat by lia.
    rewrite repeat_app, fold_left_app.
    apply smart_decreases_at_minimum. reflexivity.
Qed.

(** From 1, in range for both viewers: mixed sequences, then fifty
    decreases. *)
Lemma adjustScale_stays_clamped_witness :
  0.1 <= SimpleARViewer.furnitureScale
           (fold_left (fun s increase => SimpleARViewer.adjustScale increase s)
              [false; true; true] (Scenario.simpleAt 1))
      <= 3
  /\ 0.1 <= SmartARViewer.furnitureScale
           (fold_left (fun s increase => SmartARViewer.adjustScale increase s)
              [true; true; true] (Scenario.smartAt 1))
      <= 1.5
  /\ SmartARViewer.furnitureScale
       (fold_left (fun s increase => SmartARViewer.adjustScale increase s)
          (repeat false 50) (Scenario.smartAt 1)) = 0.1.
Proof.
  destruct adjustScale_stays_clamped as (Hsimple & Hsmart & Hexact).
  split; [| split].
  - apply Hsimple. q_closed.
  - apply Hsmart. q_closed.
  - apply Hexact. lia.
Defined.




(** ** Reset *)

(** C9: [resetPlacement] gives one fixed state, whatever came before: the
    position at half the width and 0.7 of the height (0.75 in
    CloudVisionARViewer), the scale the viewer starts with; resetting twice
    is resetting once. *)
Theorem reset_is_constant_and_idempotent :
  forall (screenWidth screenHeight : Q),
    (forall actions st,
       SmartARViewer.resetPlacement screenWidth screenHeight
         (SmartARViewer.run screenWidth screenHeight actions st)
       = {| SmartARViewer.furnitureScale :=
              SmartARViewer.furnitureScale
                (SmartARViewer.initialState screenWidth screenHeight);
            SmartARViewer.furniturePosition :=
              {| px := screenWidth / 2; py := screenHeight * 0.7 |};
            SmartARViewer.isPlaced := false |})
    /\ (forall actions st,
       RealTimeARViewer.resetPlacement screenWidth screenHeight
         (RealTimeARViewer.run screenWidth screenHeight actions st)
       = {| RealTimeARViewer.furnitureScale :=
              RealTimeARViewer.furnitureScale
                (RealTimeARViewer.initialState screenWidth screenHeight);
            RealTimeARViewer.furniturePosition :=
              {| px := screenWidth / 2; py := screenHeight * 0.7 |} |})
    /\ (forall actions st,
       CloudVisionARViewer.resetPlacement screenWidth screenHeight
         (CloudVisionARViewer.run screenWidth screenHeight actions st)
       = {| CloudVisionARViewer.furnitureScale :=
              CloudVisionARViewer.furnitureScale
                (CloudVisionARViewer.initialState screenWidth screenHeight);
            CloudVisionARViewer.furniturePosition :=
              {| px := screenWidth / 2; py := screenHeight * 0.75 |} |})
    /\ (forall st,
       SmartARViewer.resetPlacement screenWidth screenHeight
         (SmartARViewer.resetPlacement screenWidth screenHeight st)
       = SmartARViewer.resetPlacement screenWidth screenHeight st)
    /\ (forall st,
       RealTimeARViewer.resetPlacement screenWidth screenHeight
         (RealTimeARViewer.resetPlacement screenWidth screenHeight st)
       = RealTimeARViewer.resetPlacement screenWidth screenHeight st)
    /\ (forall st,
       CloudVisionARViewer.resetPlacement screenWidth screenHeight
         (CloudVisionARViewer.resetPlacement screenWidth screenHeight st)
       = CloudVisionARViewer.resetPlacement screenWidth screenHeight st).
Proof. intros. repeat split. Qed.

(** ImageARViewer resets to the middle of the screen and to its own
    starting scale. *)
Remark image_viewer_resets_to_the_centre (screenWidth screenHeight : Q)
    (st : ImageARViewer.State) :
  ImageARViewer.resetPlacement screenWidth screenHeight st
  = {| ImageARViewer.furnitureScale := 0.5;
       ImageARViewer.furniturePosition :=
         {| px := screenWidth / 2; py := screenHeight / 2 |};
       ImageARViewer.isPlaced := false;
       ImageARViewer.spaceDetected := ImageARViewer.spaceDetected st |}.
Proof. reflexivity. Qed.

(** ** Collisions come first *)

Lemma firstOverlap_some (detectedObjects : list CloudVisionARViewer.DetectedObject)
    (fl fr ft fb : Q) (obj : CloudVisionARViewer.DetectedObject) :
  CloudVisionARViewer.firstOverlap detectedObjects fl fr ft fb = Some obj ->
  In obj detectedObjects
  /\ (CloudVisionARViewer.label obj =? "floor")%string = false
  /\ overlaps fl fr ft fb
       (box_x (CloudVisionARViewer.boundingBox obj))
       (box_x (CloudVisionARViewer.boundingBox obj)
        + box_width (CloudVisionARViewer.boundingBox obj))
       (box_y (CloudVisionARViewer.boundingBox obj))
       (box_y (CloudVisionARViewer.boundingBox obj)
        + box_height (CloudVisionARViewer.boundingBox obj)) = true.
Proof.
  induction detectedObjects as [|o rest IH]; simpl; [discriminate |].
  destruct (CloudVisionARViewer.label o =? "floor")%string eqn:Efloor.
  - intro H. destruct (IH H) as (? & ? & ?). auto.
  - intro H.
    match type of H with
    | (if ?c then _ else _) = _ => destruct c eqn:E
    end.
    + injection H as <-. auto.
    + destruct (IH H) as (? & ? & ?). auto.
Qed.

Lemma cloud_collision_inv
    (detectedObjects : list CloudVisionARViewer.DetectedObject) (x y w h : Q) :
  CloudVisionARViewer.collision
    (CloudVisionARViewer.checkCollision detectedObjects x y w h) = true ->
  exists obj,
    In obj detectedObjects
    /\ (CloudVisionARViewer.label obj =? "floor")%string = false
    /\ meets x y w h
         (box_x (CloudVisionARViewer.boundingBox obj))
         (box_y (CloudVisionARViewer.boundingBox obj))
         (box_width (CloudVisionARViewer.boundingBox obj))
         (box_height (CloudVisionARViewer.boundingBox obj))
    /\ CloudVisionARViewer.checkCollision detectedObjects x y w h
       = {| CloudVisionARViewer.collision := true;
            CloudVisionARViewer.object := Some (CloudVisionARViewer.label obj);
            CloudVisionARViewer.confidence :=
              CloudVisionARViewer.object_confidence obj |}.
Proof.
  unfold CloudVisionARViewer.checkCollision.
  destruct (CloudVisionARViewer.firstOverlap _ _ _ _ _) as [obj|] eqn:E.
  - intros _. exists obj.
    apply firstOverlap_some in E. destruct E as (Hin & Hfloor & Hover).
    apply overlaps_true in Hover. unfold meets. tauto.
  - destruct (find _ _) as [floor|]; [| discriminate].
    destruct (_ && _); discriminate.
Qed.

Lemma ai_collision_inv (detectedObjects : list AIARViewer.DetectedObject)
    (x y w h : Q) :
  AIARViewer.collision (AIARViewer.checkCollision detectedObjects x y w h)
  = true ->
  exists obj,
    In obj detectedObjects
    /\ meets x y w h
         (box_x (AIARViewer.bbox obj)) (box_y (AIARViewer.bbox obj))
         (box_width (AIARViewer.bbox obj)) (box_height (AIARViewer.bbox obj))
    /\ AIARViewer.checkCollision detectedObjects x y w h
       = {| AIARViewer.collision := true;
            AIARViewer.objectType := Some (AIARViewer.class obj) |}.
Proof.
  induction detectedObjects as [|o rest IH]; simpl; [discriminate |].
  destruct (overlaps _ _ _ _ _ _ _ _) eqn:E.
  - intros _. exists o. apply overlaps_true in E. unfold meets. tauto.
  - intro H. destruct (IH H) as (obj & Hin & Hmeets & Heq).
    exists obj. auto.
Qed.

(** C1: when the collision query reports a collision, the verdict of
    CloudVisionARViewer and of AIARViewer is [fits = false] with the reason
    "Blocked by" and the label of a detected object that the furniture
    rectangle meets (and, in CloudVisionARViewer, its confidence as a
    percentage), whatever the screen bounds say about the placement. *)
Theorem collision_dominates_later_checks :
  (forall (selected : FurnitureModel)
          (detectedObjects : list CloudVisionARViewer.DetectedObject)
          (st : CloudVisionARViewer.State),
     let position := CloudVisionARViewer.furniturePosition st in
     let furnitureWidth :=
       width (dimensions selected) * CloudVisionARViewer.furnitureScale st in
     let furnitureHeight :=
       height (dimensions selected) * CloudVisionARViewer.furnitureScale st in
     CloudVisionARViewer.collision
       (CloudVisionARViewer.checkCollision detectedObjects
          (px position) (py position) furnitureWidth furnitureHeight)
     = true ->
     exists obj,
       In obj detectedObjects
       /\ (CloudVisionARViewer.label obj =? "floor")%string = false
       /\ meets (px position) (py position) furnitureWidth furnitureHeight
            (box_x (CloudVisionARViewer.boundingBox obj))
            (box_y (CloudVisionARViewer.boundingBox obj))
            (box_width (CloudVisionARViewer.boundingBox obj))
            (box_height (CloudVisionARViewer.boundingBox obj))
       /\ CloudVisionARViewer.checkFit (Some selected) detectedObjects st
          = {| CloudVisionARViewer.fits := false;
               CloudVisionARViewer.reason :=
                 ("Blocked by " ++ CloudVisionARViewer.label obj)%string;
               CloudVisionARViewer.detail :=
                 ("(" ++
                  JS.show (JS.Math_round
                    (CloudVisionARViewer.object_confidence obj * 100)) ++
                  "% confidence)")%string |})
  /\ (forall (screenWidth screenHeight : Q) (selected : FurnitureModel)
          (detectedObjects : list AIARViewer.DetectedObject)
          (st : AIARViewer.State),
     let position := AIARViewer.furniturePosition st in
     let furnitureWidth :=
       width (dimensions selected) * AIARViewer.furnitureScale st in
     let furnitureHeight :=
       height (dimensions selected) * AIARViewer.furnitureScale st in
     AIARViewer.collision
       (AIARViewer.checkCollision detectedObjects
          (px position) (py position) furnitureWidth furnitureHeight)
     = true ->
     exists obj,
       In obj detectedObjects
       /\ meets (px position) (py position) furnitureWidth furnitureHeight
            (box_x (AIARViewer.bbox obj)) (box_y (AIARViewer.bbox obj))
            (box_width (AIARViewer.bbox obj)) (box_height (AIARViewer.bbox obj))
       /\ AIARViewer.checkFit screenWidth screenHeight (Some selected)
            detectedObjects st
          = {| AIARViewer.fits := false;
               AIARViewer.reason :=
                 ("Blocked by " ++ AIARViewer.class obj)%string |}).
Proof.
  split.
  - intros selected detectedObjects st position furnitureWidth furnitureHeight H.
    destruct (cloud_collision_inv _ _ _ _ _ H)
      as (obj & Hin & Hfloor & Hmeets & Heq).
    exists obj. repeat split; try assumption; try apply Hmeets.
    unfold CloudVisionARViewer.checkFit.
    fold position furnitureWidth furnitureHeight. rewrite Heq. reflexivity.
  - intros screenWidth screenHeight selected detectedObjects st
      position furnitureWidth furnitureHeight H.
    destruct (ai_collision_inv _ _ _ _ _ H) as (obj & Hin & Hmeets & Heq).
    exists obj. repeat split; try assumption; try apply Hmeets.
    unfold AIARViewer.checkFit.
    fold position furnitureWidth furnitureHeight. rewrite Heq. reflexivity.
Qed.

(** A person detected with confidence 0.9 over the whole window, the coffee
    table at half size well inside the window. *)
Lemma collision_dominates_later_checks_witness :
  (exists obj,
     In obj [Scenario.cloudPerson]
     /\ (CloudVisionARViewer.label obj =? "floor")%string = false
     /\ meets 200 560 (120 * 0.5) (45 * 0.5)
          (box_x (CloudVisionARViewer.boundingBox obj))
          (box_y (CloudVisionARViewer.boundingBox obj))
          (box_width (CloudVisionARViewer.boundingBox obj))
          (box_height (CloudVisionARViewer.boundingBox obj))
     /\ CloudVisionARViewer.checkFit (Some table_2) [Scenario.cloudPerson]
          Scenario.cloudPlacement
        = {| CloudVisionARViewer.fits := false;
             CloudVisionARViewer.reason :=
               ("Blocked by " ++ CloudVisionARViewer.label obj)%string;
             CloudVisionARViewer.detail :=
               ("(" ++
                JS.show (JS.Math_round
                  (CloudVisionARViewer.object_confidence obj * 100)) ++
                "% confidence)")%string |})
  /\ (exists obj,
     In obj [Scenario.aiPerson]
     /\ meets 200 560 (120 * 0.5) (45 * 0.5)
          (box_x (AIARViewer.bbox obj)) (box_y (AIARViewer.bbox obj))
          (box_width (AIARViewer.bbox obj)) (box_height (AIARViewer.bbox obj))
     /\ AIARViewer.checkFit 400 800 (Some table_2) [Scenario.aiPerson]
          Scenario.aiPlacement
        = {| AIARViewer.fits := false;
             AIARViewer.reason :=
               ("Blocked by " ++ AIARViewer.class obj)%string |}).
Proof.
  destruct collision_dominates_later_checks as [Hcloud Hai].
  split.
  - exact (Hcloud table_2 [Scenario.cloudPerson] Scenario.cloudPlacement
             eq_refl).
  - exact (Hai 400 800 table_2 [Scenario.aiPerson] Scenario.aiPlacement
             eq_refl).
Defined.

(** The same placements, evaluated: blocked by the person although inside
    the window, and clear once nothing is detected. *)
Example blocked_by_person :
  CloudVisionARViewer.checkFit (Some table_2) [Scenario.cloudPerson]
    Scenario.cloudPlacement
  = {| CloudVisionARViewer.fits := false;
       CloudVisionARViewer.reason := "Blocked by person";
       CloudVisionARViewer.detail := "(90% confidence)" |}
  /\ AIARViewer.checkFit 400 800 (Some table_2) [Scenario.aiPerson]
       Scenario.aiPlacement
     = {| AIARViewer.fits := false; AIARViewer.reason := "Blocked by person" |}
  /\ AIARViewer.checkFit 400 800 (Some table_2) [] Scenario.aiPlacement
     = {| AIARViewer.fits := true;
          AIARViewer.reason := "Clear space detected" |}.
Proof. repeat split. Qed.

(** A collision is reported before the bounds are: the same table dragged
    to the corner of the window is out of bounds when nothing is detected,
    and blocked when the person is. *)
Example blocked_although_out_of_bounds :
  let corner := {| AIARViewer.furnitureScale := 0.5;
                   AIARViewer.furniturePosition := {| px := 0; py := 0 |} |} in
  AIARViewer.checkFit 400 800 (Some table_2) [] corner
  = {| AIARViewer.fits := false; AIARViewer.reason := "Out of bounds" |}
  /\ AIARViewer.checkFit 400 800 (Some table_2) [Scenario.aiPerson] corner
     = {| AIARViewer.fits := false; AIARViewer.reason := "Blocked by person" |}.
Proof. split; reflexivity. Qed.

(** ** The confidence floor *)

Lemma realtime_checkCollision_skips_weak
    (before after : list RealTimeARViewer.DetectedRegion)
    (region : RealTimeARViewer.DetectedRegion) (x y w h : Q) :
  RealTimeARViewer.region_type region = RealTimeARViewer.obstacle ->
  RealTimeARViewer.region_confidence region <= 0.5 ->
  RealTimeARViewer.checkCollision (before ++ region :: after) x y w h
  = RealTimeARViewer.checkCollision (before ++ after) x y w h.
Proof.
  intros Htype Hconf.
  induction before as [|r before IH]; simpl.
  - rewrite Htype.
    apply gtb_false in Hconf. rewrite Hconf, andb_false_r. reflexivity.
  - rewrite IH. reflexivity.
Qed.

Lemma existsb_skips (A : Type) (f : A -> bool) (before after : list A) (a : A) :
  f a = false -> existsb f (before ++ a :: after) = existsb f (before ++ after).
Proof.
  intro H. rewrite !existsb_app. simpl. rewrite H. reflexivity.
Qed.

(** C3, as the code has it: in RealTimeARViewer an obstacle region whose
    confidence is at most 0.5 changes neither the collision query nor the
    verdict, wherever it stands in the list and whether or not it overlaps
    the furniture. *)
Theorem weak_obstacle_is_ignored_in_realtime :
  forall (selectedFurniture : option FurnitureModel)
         (before after : list RealTimeARViewer.DetectedRegion)
         (region : RealTimeARViewer.DetectedRegion)
         (st : RealTimeARViewer.State) (x y w h : Q),
    RealTimeARViewer.region_type region = RealTimeARViewer.obstacle ->
    RealTimeARViewer.region_confidence region <= 0.5 ->
    RealTimeARViewer.checkCollision (before ++ region :: after) x y w h
    = RealTimeARViewer.checkCollision (before ++ after) x y w h
    /\ RealTimeARViewer.checkFit selectedFurniture
         (before ++ region :: after) st
       = RealTimeARViewer.checkFit selectedFurniture (before ++ after) st.
Proof.
  intros selectedFurniture before after region st x y w h Htype Hconf.
  split.
  - apply realtime_checkCollision_skips_weak; assumption.
  - unfold RealTimeARViewer.checkFit.
    destruct selectedFurniture as [selected|]; [| reflexivity].
    rewrite realtime_checkCollision_skips_weak by assumption.
    rewrite existsb_skips by (rewrite Htype; reflexivity).
    reflexivity.
Qed.

(** The weak region in front of the fallback detection of the window. *)
Lemma weak_obstacle_is_ignored_in_realtime_witness :
  RealTimeARViewer.checkCollision
    ([] ++ Scenario.weakRegion :: RealTimeARViewer.performSimpleDetection 400 800)
    200 560 60 22.5
  = RealTimeARViewer.checkCollision
      ([] ++ RealTimeARViewer.performSimpleDetection 400 800) 200 560 60 22.5
  /\ RealTimeARViewer.checkFit (Some table_2)
       ([] ++ Scenario.weakRegion
           :: RealTimeARViewer.performSimpleDetection 400 800)
       Scenario.realTimePlacement
     = RealTimeARViewer.checkFit (Some table_2)
         ([] ++ RealTimeARViewer.performSimpleDetection 400 800)
         Scenario.realTimePlacement.
Proof.
  apply (weak_obstacle_is_ignored_in_realtime (Some table_2) []
           (RealTimeARViewer.performSimpleDetection 400 800)
           Scenario.weakRegion Scenario.realTimePlacement 200 560 60 22.5);
    q_closed.
Defined.

(** The weak region alone, evaluated: the furniture rectangle lies inside
    it and the placement is clear. *)
Example weak_region_alone :
  RealTimeARViewer.checkFit (Some table_2) [Scenario.weakRegion]
    Scenario.realTimePlacement
  = {| RealTimeARViewer.fits := true;
       RealTimeARViewer.reason := "Space appears clear" |}.
Proof. reflexivity. Qed.

(** C3, as stated, fails in CloudVisionARViewer, which reads no confidence:
    a chair detected with confidence 0.4 around the furniture blocks the
    placement, and without it the same placement is clear. *)
Lemma weak_object_blocks_in_cloud_vision :
  CloudVisionARViewer.object_confidence Scenario.weakChair <= 0.5
  /\ CloudVisionARViewer.checkFit (Some table_2) [Scenario.weakChair]
       Scenario.cloudPlacement
     = {| CloudVisionARViewer.fits := false;
          CloudVisionARViewer.reason := "Blocked by chair";
          CloudVisionARViewer.detail := "(40% confidence)" |}
  /\ CloudVisionARViewer.checkFit (Some table_2) [] Scenario.cloudPlacement
     = {| CloudVisionARViewer.fits := true;
          CloudVisionARViewer.reason := "Space appears clear";
          CloudVisionARViewer.detail := "No obstacles detected" |}.
Proof. split; [q_closed | split; reflexivity]. Qed.

(** ** Custom furniture *)

(** A text that [parseFloat] does not read, or reads as zero, gives 100
    in each of the three dimensions. *)
Lemma custom_dimension_fallback (text : string) :
  JS.truthy (JS.parseFloat text) = false ->
  JS.or (JS.parseFloat text) (JS.Num 100) = JS.Num 100.
Proof. intro H. unfold JS.or. rewrite H. reflexivity. Qed.

(** C8 at a concrete form: with the three fields unreadable (a word, and
    two fields left empty, where the depth field shows its placeholder 50),
    the custom item is 100 by 100 by 100: the depth falls back to 100, not
    to 50. *)
Theorem unreadable_depth_falls_back_to_100 :
  FurnitureSelector.createCustomFurniture (Some "file:///sofa.jpg"%string)
    Scenario.unreadableForm
  = Some ({| id := "custom-1"; name := "Custom Furniture"; type := sofa;
             dimensions := {| width := JS.Num 100; height := JS.Num 100;
                              depth := JS.Num 100 |};
             color := "#4B0082" |}, "file:///sofa.jpg"%string)
  /\ FurnitureSelector.depth_text FurnitureSelector.placeholder = "50"%string
  /\ FurnitureSelector.depth_text FurnitureSelector.initialCustomDimensions
     = "50"%string.
Proof. repeat split. Qed.

(** The form as it is first shown gives 100 by 100 by 50. *)
Example initial_form_is_read :
  FurnitureSelector.createCustomFurniture (Some "file:///sofa.jpg"%string)
    FurnitureSelector.initialCustomDimensions
  = Some ({| id := "custom-1"; name := "Custom Furniture"; type := sofa;
             dimensions := {| width := JS.Num 100; height := JS.Num 100;
                              depth := JS.Num 50 |};
             color := "#4B0082" |}, "file:///sofa.jpg"%string).
Proof. reflexivity. Qed.

(** * Further properties *)

(** ** The 3-D room check at any position *)




(** ** The 3-D viewer *)

Lemma moved_keeps_above_floor (direction : ARViewer.Direction)
    (prev : Vector3) :
  0 <= vy prev -> 0 <= vy (ARViewer.moved direction prev).
Proof.
  intro H. destruct direction; simpl; try exact H.
  - lra.
  - apply Q.le_max_l.
Qed.

Lemma press_position (selectedFurniture : option FurnitureModel)
    (roomDimensions : Dimensions) (st : ARViewer.State)
    (direction : ARViewer.Direction) :
  ARViewer.furniturePosition
    (ARViewer.press selectedFurniture roomDimensions st direction)
  = ARViewer.moved direction (ARViewer.furniturePosition st).
Proof. destruct selectedFurniture; reflexivity. Qed.

Lemma presses_with_selection (selected : FurnitureModel)
    (roomDimensions : Dimensions) (directions : list ARViewer.Direction) :
  forall st : ARViewer.State,
    0 <= vy (ARViewer.furniturePosition st) ->
    ARViewer.fits st
    = FurnitureModels.checkFit selected (ARViewer.furniturePosition st)
        roomDimensions ->
    0 <= vy (ARViewer.furniturePosition
               (fold_left (ARViewer.press (Some selected) roomDimensions)
                  directions st))
    /\ ARViewer.fits
         (fold_left (ARViewer.press (Some selected) roomDimensions)
            directions st)
       = FurnitureModels.checkFit selected
           (ARViewer.furniturePosition
              (fold_left (ARViewer.press (Some selected) roomDimensions)
                 directions st))
           roomDimensions.
Proof.
  induction directions as [|d ds IH]; intros st Hy Hf.
  - simpl. auto.
  - cbn [fold_left]. apply IH.
    + rewrite press_position. apply moved_keeps_above_floor, Hy.
    + reflexivity.
Qed.

Lemma presses_without_selection (roomDimensions : Dimensions)
    (directions : list ARViewer.Direction) :
  forall st : ARViewer.State,
    0 <= vy (ARViewer.furniturePosition st) ->
    ARViewer.fits st = true ->
    0 <= vy (ARViewer.furniturePosition
               (fold_left (ARViewer.press None roomDimensions) directions st))
    /\ ARViewer.fits
         (fold_left (ARViewer.press None roomDimensions) directions st)
       = true.
Proof.
  induction directions as [|d ds IH]; intros st Hy Hf.
  - simpl. auto.
  - cbn [fold_left]. apply IH.
    + rewrite press_position. apply moved_keeps_above_floor, Hy.
    + exact Hf.
Qed.

(** X3: in the 3-D viewer, once the effect has run, any presses of the
    direction buttons keep the item on or above the floor, and with an item
    selected the flag shown is the check at the current position; with no
    item selected the flag stays [true]. *)
Theorem viewer3d_flag_follows_position :
  forall (roomDimensions : Dimensions) (directions : list ARViewer.Direction),
    (forall selected : FurnitureModel,
       let st := fold_left (ARViewer.press (Some selected) roomDimensions)
                   directions
                   (ARViewer.fitEffect (Some selected) roomDimensions
                      ARViewer.initialState) in
       0 <= vy (ARViewer.furniturePosition st)
       /\ ARViewer.fits st
          = FurnitureModels.checkFit selected (ARViewer.furniturePosition st)
              roomDimensions)
    /\ (let st := fold_left (ARViewer.press None roomDimensions) directions
                    (ARViewer.fitEffect None roomDimensions
                       ARViewer.initialState) in
        0 <= vy (ARViewer.furniturePosition st)
        /\ ARViewer.fits st = true).
Proof.
  intros roomDimensions directions. split.
  - intro selected.
    apply presses_with_selection; [simpl; lra | reflexivity].
  - apply presses_without_selection; [simpl; lra | reflexivity].
Qed.


(** The three-seater in a room 4 m deep: rejected where the viewer starts,
    accepted in the middle of the room. *)
Example sofa_rejected_where_the_viewer_starts :
  FurnitureModels.checkFit sofa_1
    (ARViewer.furniturePosition ARViewer.initialState) Scenario.smallRoom
  = false
  /\ FurnitureModels.checkFit sofa_1 {| vx := 0; vy := 0; vz := 0 |}
       Scenario.smallRoom = true.
Proof. split; reflexivity. Qed.

(** ** Moving on the percent grid *)

Lemma percent_down (x : Q) :
  0 <= x <= 100 -> 0 <= JS.Math_max 0 (x - 10) <= 100.
Proof.
  intros [H0 H1]. unfold JS.Math_max. split.
  - apply Q.le_max_l.
  - apply Q.max_lub; lra.
Qed.

Lemma percent_up (x : Q) :
  0 <= x <= 100 -> 0 <= JS.Math_min 100 (x + 10) <= 100.
Proof.
  intros [H0 H1]. unfold JS.Math_min. split.
  - apply Q.min_glb; lra.
  - apply Q.le_min_l.
Qed.

Lemma simple_move_in_range (direction : Direction) (st : SimpleARViewer.State) :
  0 <= px (SimpleARViewer.furniturePosition st) <= 100 ->
  0 <= py (SimpleARViewer.furniturePosition st) <= 100 ->
  0 <= px (SimpleARViewer.furniturePosition
             (SimpleARViewer.moveFurniture direction st)) <= 100
  /\ 0 <= py (SimpleARViewer.furniturePosition
                (SimpleARViewer.moveFurniture direction st)) <= 100.
Proof.
  intros Hx Hy.
  destruct direction; simpl;
    auto using percent_down, percent_up.
Qed.

Lemma camera_move_in_range (direction : Direction) (st : CameraARViewer.State) :
  0 <= px (CameraARViewer.furniturePosition st) <= 100 ->
  0 <= py (CameraARViewer.furniturePosition st) <= 100 ->
  0 <= px (CameraARViewer.furniturePosition
             (CameraARViewer.moveFurniture direction st)) <= 100
  /\ 0 <= py (CameraARViewer.furniturePosition
                (CameraARViewer.moveFurniture direction st)) <= 100.
Proof.
  intros Hx Hy.
  destruct direction; simpl;
    auto using percent_down, percent_up.
Qed.

(** X5: in SimpleARViewer and in CameraARViewer the direction buttons keep
    a position that is between 0 and 100 percent on both axes between 0 and
    100, leave the scale alone and never change the verdict. *)
Theorem moves_stay_between_0_and_100 :
  (forall (directions : list Direction) (st : SimpleARViewer.State)
          (selectedFurniture : option FurnitureModel) (room : Dimensions),
     0 <= px (SimpleARViewer.furniturePosition st) <= 100 ->
     0 <= py (SimpleARViewer.furniturePosition st) <= 100 ->
     let st' := fold_left (fun s d => SimpleARViewer.moveFurniture d s)
                  directions st in
     0 <= px (SimpleARViewer.furniturePosition st') <= 100
     /\ 0 <= py (SimpleARViewer.furniturePosition st') <= 100
     /\ SimpleARViewer.furnitureScale st' = SimpleARViewer.furnitureScale st
     /\ SimpleARViewer.checkFit selectedFurniture room st'
        = SimpleARViewer.checkFit selectedFurniture room st)
  /\ (forall (directions : list Direction) (st : CameraARViewer.State)
          (selectedFurniture : option FurnitureModel) (room : Dimensions),
     0 <= px (CameraARViewer.furniturePosition st) <= 100 ->
     0 <= py (CameraARViewer.furniturePosition st) <= 100 ->
     let st' := fold_left (fun s d => CameraARViewer.moveFurniture d s)
                  directions st in
     0 <= px (CameraARViewer.furniturePosition st') <= 100
     /\ 0 <= py (CameraARViewer.furniturePosition st') <= 100
     /\ CameraARViewer.furnitureScale st' = CameraARViewer.furnitureScale st
     /\ CameraARViewer.checkFit selectedFurniture room st'
        = CameraARViewer.checkFit selectedFurniture room st).
Proof.
  split.
  - induction directions as [|d ds IH]; intros st sel room Hx Hy; cbn zeta.
    + simpl. auto.
    + cbn [fold_left].
      destruct (simple_move_in_range d st Hx Hy) as [Hx' Hy'].
      destruct (IH (SimpleARViewer.moveFurniture d st) sel room Hx' Hy')
        as (H1 & H2 & H3 & H4).
      repeat split; try apply H1; try apply H2.
      * rewrite H3. reflexivity.
      * rewrite H4. reflexivity.
  - induction directions as [|d ds IH]; intros st sel room Hx Hy; cbn zeta.
    + simpl. auto.
    + cbn [fold_left].
      destruct (camera_move_in_range d st Hx Hy) as [Hx' Hy'].
      destruct (IH (CameraARViewer.moveFurniture d st) sel room Hx' Hy')
        as (H1 & H2 & H3 & H4).
      repeat split; try apply H1; try apply H2.
      * rewrite H3. reflexivity.
      * rewrite H4. reflexivity.
Qed.

(** From the middle, where both viewers start: seven presses to the left
    and one up. *)
Lemma moves_stay_between_0_and_100_witness :
  (0 <= px (SimpleARViewer.furniturePosition
              (fold_left (fun s d => SimpleARViewer.moveFurniture d s)
                 (repeat left 7 ++ [up]) SimpleARViewer.initialState)) <= 100
   /\ 0 <= py (SimpleARViewer.furniturePosition
              (fold_left (fun s d => SimpleARViewer.moveFurniture d s)
                 (repeat left 7 ++ [up]) SimpleARViewer.initialState)) <= 100
   /\ SimpleARViewer.furnitureScale
        (fold_left (fun s d => SimpleARViewer.moveFurniture d s)
           (repeat left 7 ++ [up]) SimpleARViewer.initialState)
      = SimpleARViewer.furnitureScale SimpleARViewer.initialState
   /\ SimpleARViewer.checkFit (Some sofa_1) Scenario.smallRoom
        (fold_left (fun s d => SimpleARViewer.moveFurniture d s)
           (repeat left 7 ++ [up]) SimpleARViewer.initialState)
      = SimpleARViewer.checkFit (Some sofa_1) Scenario.smallRoom
          SimpleARViewer.initialState)
  /\ (0 <= px (CameraARViewer.furniturePosition
              (fold_left (fun s d => CameraARViewer.moveFurniture d s)
                 (repeat left 7 ++ [up]) CameraARViewer.initialState)) <= 100
   /\ 0 <= py (CameraARViewer.furniturePosition
              (fold_left (fun s d => CameraARViewer.moveFurniture d s)
                 (repeat left 7 ++ [up]) CameraARViewer.initialState)) <= 100
   /\ CameraARViewer.furnitureScale
        (fold_left (fun s d => CameraARViewer.moveFurniture d s)
           (repeat left 7 ++ [up]) CameraARViewer.initialState)
      = CameraARViewer.furnitureScale CameraARViewer.initialState
   /\ CameraARViewer.checkFit (Some sofa_1) Scenario.smallRoom
        (fold_left (fun s d => CameraARViewer.moveFurniture d s)
           (repeat left 7 ++ [up]) CameraARViewer.initialState)
      = CameraARViewer.checkFit (Some sofa_1) Scenario.smallRoom
          CameraARViewer.initialState).
Proof.
  destruct moves_stay_between_0_and_100 as [Hsimple Hcamera].
  split.
  - apply (Hsimple (repeat left 7 ++ [up]) SimpleARViewer.initialState
             (Some sofa_1) Scenario.smallRoom); q_closed.
  - apply (Hcamera (repeat left 7 ++ [up]) CameraARViewer.initialState
             (Some sofa_1) Scenario.smallRoom); q_closed.
Defined.

(** Seven presses to the left from the middle end at the left edge, 0. *)
Example seven_presses_left_saturate :
  SimpleARViewer.furniturePosition
    (fold_left (fun s d => SimpleARViewer.moveFurniture d s)
       (repeat left 7) SimpleARViewer.initialState)
  = {| px := 0; py := 50 |}.
Proof. reflexivity. Qed.

(** ** The scale over whole sessions *)

Lemma smart_step_keeps_scale (screenWidth screenHeight : Q)
    (st : SmartARViewer.State) (a : SmartARViewer.Action) :
  0.1 <= SmartARViewer.furnitureScale st <= 1.5 ->
  0.1 <= SmartARViewer.furnitureScale
           (SmartARViewer.step screenWidth screenHeight st a) <= 1.5.
Proof.
  intro H. destruct a; simpl; try exact H.
  - apply clamp_in_range. q_closed.
  - q_closed.
Qed.

Lemma realtime_step_keeps_scale (screenWidth screenHeight : Q)
    (st : RealTimeARViewer.State) (a : RealTimeARViewer.Action) :
  0.1 <= RealTimeARViewer.furnitureScale st <= 1.5 ->
  0.1 <= RealTimeARViewer.furnitureScale
           (RealTimeARViewer.step screenWidth screenHeight st a) <= 1.5.
Proof.
  intro H. destruct a; simpl; try exact H.
  - apply clamp_in_range. q_closed.
  - q_closed.
Qed.

Lemma cloud_step_keeps_scale (screenWidth screenHeight : Q)
    (st : CloudVisionARViewer.State) (a : CloudVisionARViewer.Action) :
  0.1 <= CloudVisionARViewer.furnitureScale st <= 1.5 ->
  0.1 <= CloudVisionARViewer.furnitureScale
           (CloudVisionARViewer.step screenWidth screenHeight st a) <= 1.5.
Proof.
  intro H. destruct a; simpl; try exact H.
  - apply clamp_in_range. q_closed.
  - q_closed.
Qed.

(** An invariant of a step is an invariant of a run. *)
Lemma fold_left_invariant (S A : Type) (P : S -> Prop) (f : S -> A -> S) :
  (forall s a, P s -> P (f s a)) ->
  forall (l : list A) (s : S), P s -> P (fold_left f l s).
Proof.
  intros Hstep l. induction l as [|a l IH]; intros s Hs; simpl.
  - exact Hs.
  - apply IH, Hstep, Hs.
Qed.

(** X6: in SmartARViewer, RealTimeARViewer and CloudVisionARViewer, from
    the state the viewer starts in, every session of drags, releases, scale
    buttons and resets leaves the scale between 0.1 and 1.5; the scaled
    width and height of an item are then between a tenth and one and a half
    times its own. *)
Theorem session_scale_stays_clamped :
  forall (screenWidth screenHeight : Q),
    (forall actions : list SmartARViewer.Action,
       0.1 <= SmartARViewer.furnitureScale
                (SmartARViewer.run screenWidth screenHeight actions
                   (SmartARViewer.initialState screenWidth screenHeight))
           <= 1.5)
    /\ (forall actions : list RealTimeARViewer.Action,
       0.1 <= RealTimeARViewer.furnitureScale
                (RealTimeARViewer.run screenWidth screenHeight actions
                   (RealTimeARViewer.initialState screenWidth screenHeight))
           <= 1.5)
    /\ (forall actions : list CloudVisionARViewer.Action,
       0.1 <= CloudVisionARViewer.furnitureScale
                (CloudVisionARViewer.run screenWidth screenHeight actions
                   (CloudVisionARViewer.initialState screenWidth screenHeight))
           <= 1.5).
Proof.
  intros screenWidth screenHeight. split; [| split]; intro actions.
  - apply (fold_left_invariant _ _
             (fun st => 0.1 <= SmartARViewer.furnitureScale st <= 1.5)).
    + intros s a. apply smart_step_keeps_scale.
    + q_closed.
  - apply (fold_left_invariant _ _
             (fun st => 0.1 <= RealTimeARViewer.furnitureScale st <= 1.5)).
    + intros s a. apply realtime_step_keeps_scale.
    + q_closed.
  - apply (fold_left_invariant _ _
             (fun st => 0.1 <= CloudVisionARViewer.furnitureScale st <= 1.5)).
    + intros s a. apply cloud_step_keeps_scale.
    + q_closed.
Qed.

(** X7: in CameraARViewer, AIARViewer and ImageARViewer, from the scale the
    viewer starts with, any sequence of [adjustScale] calls leaves the scale
    in the viewer's range: 0.1 to 3, 0.1 to 1.5 and 0.1 to 2. *)
Theorem other_viewers_scale_stays_clamped :
  forall (screenWidth screenHeight : Q) (calls : list bool),
    0.1 <= CameraARViewer.furnitureScale
             (fold_left (fun s increase => CameraARViewer.adjustScale increase s)
                calls CameraARViewer.initialState) <= 3
    /\ 0.1 <= AIARViewer.furnitureScale
             (fold_left (fun s increase => AIARViewer.adjustScale increase s)
                calls (AIARViewer.initialState screenWidth screenHeight)) <= 1.5
    /\ 0.1 <= ImageARViewer.furnitureScale
             (fold_left (fun s increase => ImageARViewer.adjustScale increase s)
                calls (ImageARViewer.initialState screenWidth screenHeight)) <= 2.
Proof.
  intros screenWidth screenHeight calls. split; [| split].
  - apply (fold_left_invariant _ _
             (fun st => 0.1 <= CameraARViewer.furnitureScale st <= 3)).
    + intros s a _. apply clamp_in_range. q_closed.
    + q_closed.
  - apply (fold_left_invariant _ _
             (fun st => 0.1 <= AIARViewer.furnitureScale st <= 1.5)).
    + intros s a _. apply clamp_in_range. q_closed.
    + q_closed.
  - apply (fold_left_invariant _ _
             (fun st => 0.1 <= ImageARViewer.furnitureScale st <= 2)).
    + intros s a _. apply clamp_in_range. q_closed.
    + q_closed.
Qed.

(** Inside the range the clamp changes nothing. *)
Lemma clamp_inside (lo hi x : Q) :
  lo <= x <= hi -> JS.Math_max lo (JS.Math_min hi x) == x.
Proof.
  intros [Hlo Hhi]. unfold JS.Math_max, JS.Math_min.
  rewrite (Q.min_r hi x Hhi). apply Q.max_r, Hlo.
Qed.

Lemma clamp_above (lo hi x : Q) :
  lo <= hi -> hi <= x -> JS.Math_max lo (JS.Math_min hi x) == hi.
Proof.
  intros Hle Hx. unfold JS.Math_max, JS.Math_min.
  rewrite (Q.min_l hi x Hx). apply Q.max_r, Hle.
Qed.

(** X8: in CloudVisionARViewer, for a scale in the range, the increase
    button never lowers the scale and raises it unless it is at the maximum
    1.5; the decrease button never raises it and lowers it unless it is at
    the minimum 0.1. *)
Theorem scale_buttons_move_the_right_way :
  forall (st : CloudVisionARViewer.State),
    0.1 <= CloudVisionARViewer.furnitureScale st <= 1.5 ->
    let s := CloudVisionARViewer.furnitureScale st in
    let raised := CloudVisionARViewer.furnitureScale
                    (CloudVisionARViewer.adjustScale true st) in
    let lowered := CloudVisionARViewer.furnitureScale
                     (CloudVisionARViewer.adjustScale false st) in
    s <= raised /\ lowered <= s
    /\ (s < 1.5 -> s < raised)
    /\ (0.1 < s -> lowered < s)
    /\ (s == 1.5 -> raised == 1.5)
    /\ (s == 0.1 -> lowered == 0.1).
Proof.
  intros [s position] [Hlo Hhi]. cbn zeta.
  unfold CloudVisionARViewer.adjustScale.
  cbn [CloudVisionARViewer.furnitureScale CloudVisionARViewer.furniturePosition]
    in *.
  assert (Hup : s * 1.2 <= 1.5 \/ 1.5 <= s * 1.2) by lra.
  assert (Hdown : 0.1 <= s * 0.8 \/ s * 0.8 < 0.1) by lra.
  assert (Eup : s * 1.2 <= 1.5 ->
                JS.Math_max 0.1 (JS.Math_min 1.5 (s * 1.2)) == s * 1.2)
    by (intro; apply clamp_inside; lra).
  assert (Eup' : 1.5 <= s * 1.2 ->
                 JS.Math_max 0.1 (JS.Math_min 1.5 (s * 1.2)) == 1.5)
    by (intro; apply clamp_above; lra).
  assert (Edown : 0.1 <= s * 0.8 ->
                  JS.Math_max 0.1 (JS.Math_min 1.5 (s * 0.8)) == s * 0.8)
    by (intro; apply clamp_inside; lra).
  assert (Edown' : s * 0.8 < 0.1 ->
                   JS.Math_max 0.1 (JS.Math_min 1.5 (s * 0.8)) = 0.1)
    by (intro; apply clamp_below; lra).
  repeat split.
  - destruct Hup as [H | H]; [rewrite (Eup H) | rewrite (Eup' H)]; lra.
  - destruct Hdown as [H | H]; [rewrite (Edown H) | rewrite (Edown' H)]; lra.
  - intro Hs. destruct Hup as [H | H];
      [rewrite (Eup H) | rewrite (Eup' H)]; lra.
  - intro Hs. destruct Hdown as [H | H];
      [rewrite (Edown H) | rewrite (Edown' H)]; lra.
  - intro Hs. rewrite Eup' by lra. reflexivity.
  - intro Hs. rewrite Edown' by lra. reflexivity.
Qed.

(** At 0.5 both buttons move the scale, at 1.5 the increase and at 0.1 the
    decrease leave it where it is. *)
Lemma scale_buttons_move_the_right_way_witness :
  (0.5 < CloudVisionARViewer.furnitureScale
           (CloudVisionARViewer.adjustScale true Scenario.cloudPlacement)
   /\ CloudVisionARViewer.furnitureScale
        (CloudVisionARViewer.adjustScale false Scenario.cloudPlacement) < 0.5)
  /\ CloudVisionARViewer.furnitureScale
       (CloudVisionARViewer.adjustScale true (Scenario.cloudAt 1.5)) == 1.5
  /\ CloudVisionARViewer.furnitureScale
       (CloudVisionARViewer.adjustScale false (Scenario.cloudAt 0.1)) == 0.1.
Proof.
  pose proof (scale_buttons_move_the_right_way Scenario.cloudPlacement
                ltac:(q_closed)) as Hmid.
  pose proof (scale_buttons_move_the_right_way (Scenario.cloudAt 1.5)
                ltac:(q_closed)) as Hmax.
  pose proof (scale_buttons_move_the_right_way (Scenario.cloudAt 0.1)
                ltac:(q_closed)) as Hmin.
  cbv zeta in Hmid, Hmax, Hmin.
  destruct Hmid as (_ & _ & Hup & Hdown & _).
  destruct Hmax as (_ & _ & _ & _ & Htop & _).
  destruct Hmin as (_ & _ & _ & _ & _ & Hbottom).
  split; [split; [apply Hup | apply Hdown] | split; [apply Htop | apply Hbottom]];
    q_closed.
Defined.



(** ** SmartARViewer: zones, bounds and size *)

Lemma smart_checkCollision_app (zones more : list Box) (x y w h : Q) :
  SmartARViewer.checkCollision (zones ++ more) x y w h
  = SmartARViewer.checkCollision zones x y w h
    || SmartARViewer.checkCollision more x y w h.
Proof.
  induction zones as [|zone zones IH]; simpl.
  - reflexivity.
  - destruct (overlaps _ _ _ _ _ _ _ _); [reflexivity | exact IH].
Qed.

(** X10: in SmartARViewer the collision query over two lists of zones put
    together is the disjunction of the two queries, so adding zones never
    clears a collision, and the answer does not depend on the order of the
    zones. *)
Theorem smart_collision_of_union :
  (forall (zones more : list Box) (x y w h : Q),
     SmartARViewer.checkCollision (zones ++ more) x y w h
     = SmartARViewer.checkCollision zones x y w h
       || SmartARViewer.checkCollision more x y w h)
  /\ (forall (zones zones' : list Box) (x y w h : Q),
     Permutation zones zones' ->
     SmartARViewer.checkCollision zones x y w h
     = SmartARViewer.checkCollision zones' x y w h).
Proof.
  split.
  - apply smart_checkCollision_app.
  - intros zones zones' x y w h HP.
    apply eq_true_iff_eq. rewrite !smart_checkCollision_true.
    rewrite !Exists_exists. split; intros (zone & Hin & Hm); exists zone.
    + split; [apply (Permutation_in _ HP), Hin | exact Hm].
    + split; [apply (Permutation_in _ (Permutation_sym HP)), Hin | exact Hm].
Qed.

Lemma smart_collision_of_union_witness :
  SmartARViewer.checkCollision [Scenario.cornerZone; Scenario.touchingZone]
    50 50 100 100
  = SmartARViewer.checkCollision [Scenario.touchingZone; Scenario.cornerZone]
      50 50 100 100.
Proof.
  destruct smart_collision_of_union as [_ Hperm].
  apply Hperm. apply perm_swap.
Defined.

(** X11: SmartARViewer accepts a placement exactly when no zone meets the
    furniture rectangle, the rectangle lies strictly inside the window, and
    it is narrower than 0.6 of the window and lower than 0.4 of it. *)
Theorem smart_fits_iff_clear_inside_and_small :
  forall (screenWidth screenHeight : Q) (selected : FurnitureModel)
         (obstacleZones : list Box) (st : SmartARViewer.State),
    let x := px (SmartARViewer.furniturePosition st) in
    let y := py (SmartARViewer.furniturePosition st) in
    let w := width (dimensions selected) * SmartARViewer.furnitureScale st in
    let h := height (dimensions selected) * SmartARViewer.furnitureScale st in
    SmartARViewer.checkFit screenWidth screenHeight (Some selected)
      obstacleZones st = true
    <-> ~ Exists (fun zone =>
            meets x y w h (box_x zone) (box_y zone)
              (box_width zone) (box_height zone)) obstacleZones
        /\ 0 < x - w / 2 /\ x + w / 2 < screenWidth
        /\ 0 < y - h / 2 /\ y + h / 2 < screenHeight
        /\ w < screenWidth * 0.6 /\ h < screenHeight * 0.4.
Proof.
  intros screenWidth screenHeight selected obstacleZones st x y w h.
  unfold SmartARViewer.checkFit. fold x y w h.
  rewrite !andb_true_iff, negb_true_iff, !gtb_true, !ltb_true.
  rewrite <- not_true_iff_false, smart_checkCollision_true.
  q_div. split.
  - intros [[Hc [[[H1 H2] H3] H4]] [H5 H6]]. repeat split; try assumption; lra.
  - intros (Hc & H1 & H2 & H3 & H4 & H5 & H6).
    repeat split; try assumption; lra.
Qed.



Example bookshelf_refused_on_opening :
  SmartARViewer.checkFit 400 500 (Some shelf_1) (SmartARViewer.zones 400 500)
    (SmartARViewer.initialState 400 500) = false
  /\ SmartARViewer.checkFit 400 500 (Some shelf_1)
       (SmartARViewer.zones 400 500)
       (SmartARViewer.resetPlacement 400 500 (Scenario.smartAt 1)) = true.
Proof. split; reflexivity. Qed.

(** ** AIARViewer: the three verdicts *)

Lemma overlaps_false (fl fr ft fb x zr y zb : Q) :
  overlaps fl fr ft fb x zr y zb = false
  <-> ~ (x <= fr /\ fl <= zr /\ y <= fb /\ ft <= zb).
Proof. rewrite <- overlaps_true. symmetry. apply not_true_iff_false. Qed.

Lemma ai_checkCollision_true (detectedObjects : list AIARViewer.DetectedObject)
    (x y w h : Q) :
  AIARViewer.collision (AIARViewer.checkCollision detectedObjects x y w h)
  = true
  <-> Exists (fun obj =>
        meets x y w h
          (box_x (AIARViewer.bbox obj)) (box_y (AIARViewer.bbox obj))
          (box_width (AIARViewer.bbox obj)) (box_height (AIARViewer.bbox obj)))
      detectedObjects.
Proof.
  induction detectedObjects as [|o rest IH]; simpl.
  - split; [discriminate | intro H; inversion H].
  - rewrite Exists_cons, <- IH.
    destruct (overlaps _ _ _ _ _ _ _ _) eqn:E; simpl.
    + apply overlaps_true in E. unfold meets. tauto.
    + split; [tauto |]. intros [H | H]; [| exact H].
      apply overlaps_true in H. congruence.
Qed.

(** X13: the verdicts of AIARViewer when nothing blocks.  The placement is
    accepted, with "Clear space detected", exactly when no detected object
    meets the furniture rectangle and the rectangle lies strictly inside the
    window; it is "Out of bounds" exactly when no object meets the rectangle
    and the rectangle is not strictly inside the window. *)
Theorem ai_verdict_when_nothing_blocks :
  forall (screenWidth screenHeight : Q) (selected : FurnitureModel)
         (detectedObjects : list AIARViewer.DetectedObject)
         (st : AIARViewer.State),
    let x := px (AIARViewer.furniturePosition st) in
    let y := py (AIARViewer.furniturePosition st) in
    let w := width (dimensions selected) * AIARViewer.furnitureScale st in
    let h := height (dimensions selected) * AIARViewer.furnitureScale st in
    let blocked :=
      Exists (fun obj =>
        meets x y w h
          (box_x (AIARViewer.bbox obj)) (box_y (AIARViewer.bbox obj))
          (box_width (AIARViewer.bbox obj)) (box_height (AIARViewer.bbox obj)))
        detectedObjects in
    let inside :=
      0 < x - w / 2 /\ x + w / 2 < screenWidth
      /\ 0 < y - h / 2 /\ y + h / 2 < screenHeight in
    (AIARViewer.checkFit screenWidth screenHeight (Some selected)
       detectedObjects st
     = {| AIARViewer.fits := true;
          AIARViewer.reason := "Clear space detected" |}
     <-> ~ blocked /\ inside)
    /\ (AIARViewer.checkFit screenWidth screenHeight (Some selected)
          detectedObjects st
        = {| AIARViewer.fits := false; AIARViewer.reason := "Out of bounds" |}
        <-> ~ blocked /\ ~ inside)
    /\ (AIARViewer.fits
          (AIARViewer.checkFit screenWidth screenHeight (Some selected)
             detectedObjects st) = true
        <-> ~ blocked /\ inside).
Proof.
  intros screenWidth screenHeight selected detectedObjects st x y w h
    blocked inside.
  assert (Hin : (x >? w / 2) && (x <? screenWidth - w / 2)
                && (y >? h / 2) && (y <? screenHeight - h / 2) = true
                <-> inside).
  { unfold inside. rewrite !andb_true_iff, !gtb_true, !ltb_true. q_div.
    split.
    - intros [[[H1 H2] H3] H4]. repeat split; lra.
    - intros (H1 & H2 & H3 & H4). repeat split; lra. }
  unfold AIARViewer.checkFit. fold x y w h.
  pose proof (ai_checkCollision_true detectedObjects x y w h) as Hc.
  fold blocked in Hc.
  destruct (AIARViewer.collision
              (AIARViewer.checkCollision detectedObjects x y w h)).
  - assert (Hb : blocked) by (apply Hc; reflexivity).
    simpl. split; [| split]; (split; [intro H; discriminate H | tauto]).
  - assert (Hb : ~ blocked) by (rewrite <- Hc; discriminate).
    destruct ((x >? w / 2) && (x <? screenWidth - w / 2)
              && (y >? h / 2) && (y <? screenHeight - h / 2)) eqn:E; simpl.
    + assert (Hi : inside) by (apply Hin; reflexivity).
      split; [| split]; split; tauto || (intro H; discriminate H).
    + assert (Hi : ~ inside) by (rewrite <- Hin; discriminate).
      split; [| split]; split; tauto || (intro H; discriminate H).
Qed.

Lemma ai_first_match (before after : list AIARViewer.DetectedObject)
    (obj : AIARViewer.DetectedObject) (x y w h : Q) :
  Forall (fun o =>
    ~ meets x y w h (box_x (AIARViewer.bbox o)) (box_y (AIARViewer.bbox o))
        (box_width (AIARViewer.bbox o)) (box_height (AIARViewer.bbox o)))
    before ->
  meets x y w h (box_x (AIARViewer.bbox obj)) (box_y (AIARViewer.bbox obj))
    (box_width (AIARViewer.bbox obj)) (box_height (AIARViewer.bbox obj)) ->
  AIARViewer.checkCollision (before ++ obj :: after) x y w h
  = {| AIARViewer.collision := true;
       AIARViewer.objectType := Some (AIARViewer.class obj) |}.
Proof.
  intros Hbefore Hobj. induction Hbefore as [|o before Ho _ IH]; simpl.
  - apply overlaps_true in Hobj. rewrite Hobj. reflexivity.
  - apply overlaps_false in Ho. rewrite Ho. exact IH.
Qed.




(** X15: AIARViewer with the detection it simulates.  Where the viewer
    opens, and after every reset, an item of non-negative size is blocked by
    the simulated person, on every window: the person's box ends 0.7 down
    the window, where the furniture is centred. *)
Theorem ai_opening_placement_is_blocked :
  forall (screenWidth screenHeight : Q) (selected : FurnitureModel)
         (st : AIARViewer.State),
    0 <= screenWidth -> 0 <= screenHeight ->
    0 <= width (dimensions selected) -> 0 <= height (dimensions selected) ->
    AIARViewer.checkFit screenWidth screenHeight (Some selected)
      (AIARViewer.simulateObjectDetection screenWidth screenHeight)
      (AIARViewer.initialState screenWidth screenHeight)
    = {| AIARViewer.fits := false; AIARViewer.reason := "Blocked by person" |}
    /\ AIARViewer.checkFit screenWidth screenHeight (Some selected)
         (AIARViewer.simulateObjectDetection screenWidth screenHeight)
         (AIARViewer.resetPlacement screenWidth screenHeight st)
       = {| AIARViewer.fits := false;
            AIARViewer.reason := "Blocked by person" |}.
Proof.
  intros sw sh [i n t [w h d] c] st Hsw Hsh Hw Hh.
  cbn [width height dimensions] in *.
  assert (E : AIARViewer.checkCollision
                (AIARViewer.simulateObjectDetection sw sh)
                (sw / 2) (sh * 0.7) (w * 0.4) (h * 0.4)
              = {| AIARViewer.collision := true;
                   AIARViewer.objectType := Some "person"%string |}).
  { apply (ai_first_match [] []
             {| AIARViewer.class := "person";
                AIARViewer.bbox :=
                  {| box_x := sw * 0.2; box_y := sh * 0.2;
                     box_width := sw * 0.6; box_height := sh * 0.5 |} |}).
    - constructor.
    - unfold meets. cbn [AIARViewer.bbox box_x box_y box_width box_height].
      q_div. repeat split; lra. }
  split; unfold AIARViewer.checkFit;
    cbn [AIARViewer.initialState AIARViewer.resetPlacement
         AIARViewer.furnitureScale AIARViewer.furniturePosition
         px py width height dimensions];
    rewrite E; reflexivity.
Qed.

Lemma ai_opening_placement_is_blocked_witness :
  AIARViewer.checkFit 400 800 (Some table_2)
    (AIARViewer.simulateObjectDetection 400 800)
    (AIARViewer.initialState 400 800)
  = {| AIARViewer.fits := false; AIARViewer.reason := "Blocked by person" |}
  /\ AIARViewer.checkFit 400 800 (Some table_2)
       (AIARViewer.simulateObjectDetection 400 800)
       (AIARViewer.resetPlacement 400 800 Scenario.aiPlacement)
     = {| AIARViewer.fits := false; AIARViewer.reason := "Blocked by person" |}.
Proof.
  apply (ai_opening_placement_is_blocked 400 800 table_2 Scenario.aiPlacement);
    q_closed.
Defined.

(** ** CloudVisionARViewer: what blocks and what does not *)

Lemma firstOverlap_none (detectedObjects : list CloudVisionARViewer.DetectedObject)
    (x y w h : Q) :
  CloudVisionARViewer.firstOverlap detectedObjects
    (x - w / 2) (x + w / 2) (y - h / 2) (y + h / 2) = None
  <-> ~ Exists (fun o =>
          (CloudVisionARViewer.label o =? "floor")%string = false
          /\ meets x y w h
               (box_x (CloudVisionARViewer.boundingBox o))
               (box_y (CloudVisionARViewer.boundingBox o))
               (box_width (CloudVisionARViewer.boundingBox o))
               (box_height (CloudVisionARViewer.boundingBox o)))
        detectedObjects.
Proof.
  induction detectedObjects as [|o rest IH]; simpl.
  - split; [intros _ H; inversion H | reflexivity].
  - rewrite Exists_cons.
    destruct (CloudVisionARViewer.label o =? "floor")%string.
    + rewrite IH. split; [| tauto].
      intros H [[Hl _] | Hr]; [discriminate | tauto].
    + destruct (overlaps _ _ _ _ _ _ _ _) eqn:E.
      * apply overlaps_true in E. split; [discriminate |].
        intro H. exfalso. apply H. left. unfold meets. tauto.
      * apply overlaps_false in E. rewrite IH. unfold meets. tauto.
Qed.


(** Matching a nullable string against ['floor'] is comparing it. *)
Lemma floor_match (A : Type) (a b : A) (o : option string) :
  match o with Some "floor"%string => a | _ => b end
  = if match o with
       | Some s => (s =? "floor")%string
       | None => false
       end
    then a else b.
Proof.
  destruct o as [s|]; [| reflexivity].
  do 6 (destruct s as [|[[] [] [] [] [] [] [] []] s]; try reflexivity).
Qed.

(** X16: CloudVisionARViewer refuses a placement exactly when some detected
    object that is not labelled floor meets the furniture rectangle.  The
    window plays no part, and objects labelled floor never block. *)
Theorem cloud_refuses_iff_blocked :
  forall (selected : FurnitureModel)
         (detectedObjects : list CloudVisionARViewer.DetectedObject)
         (st : CloudVisionARViewer.State),
    let x := px (CloudVisionARViewer.furniturePosition st) in
    let y := py (CloudVisionARViewer.furniturePosition st) in
    let w := width (dimensions selected)
             * CloudVisionARViewer.furnitureScale st in
    let h := height (dimensions selected)
             * CloudVisionARViewer.furnitureScale st in
    CloudVisionARViewer.fits
      (CloudVisionARViewer.checkFit (Some selected) detectedObjects st) = false
    <-> Exists (fun o =>
          (CloudVisionARViewer.label o =? "floor")%string = false
          /\ meets x y w h
               (box_x (CloudVisionARViewer.boundingBox o))
               (box_y (CloudVisionARViewer.boundingBox o))
               (box_width (CloudVisionARViewer.boundingBox o))
               (box_height (CloudVisionARViewer.boundingBox o)))
        detectedObjects.
Proof.
  intros selected detectedObjects st x y w h.
  unfold CloudVisionARViewer.checkFit. fold x y w h.
  destruct (CloudVisionARViewer.collision
              (CloudVisionARViewer.checkCollision detectedObjects x y w h))
    eqn:E.
  - split; [| reflexivity]. intros _.
    destruct (cloud_collision_inv _ _ _ _ _ E) as (obj & Hin & Hl & Hm & _).
    apply Exists_exists. exists obj. auto.
  - split.
    + rewrite floor_match.
      destruct (match CloudVisionARViewer.object _ with
                | Some s => (s =? "floor")%string
                | None => false
                end); discriminate.
    + intro H. exfalso.
      assert (Hsome : CloudVisionARViewer.firstOverlap detectedObjects
                        (x - w / 2) (x + w / 2) (y - h / 2) (y + h / 2)
                      <> None).
      { intro Hnone. apply firstOverlap_none in Hnone. tauto. }
      unfold CloudVisionARViewer.checkCollision in E.
      destruct (CloudVisionARViewer.firstOverlap _ _ _ _ _);
        [discriminate | tauto].
Qed.






(** ** The detectors and the confidence floor *)

Lemma scanCells_confident (screenWidth screenHeight : Q) (random : nat -> Q) :
  (forall n, 0 <= random n) ->
  forall (cells : list (nat * nat)) (next : nat),
    Forall (fun region => 0.5 < RealTimeARViewer.region_confidence region)
      (RealTimeARViewer.scanCells screenWidth screenHeight random cells next).
Proof.
  intros Hrandom cells.
  induction cells as [|[row col] rest IH]; intro next; simpl.
  - constructor.
  - destruct (((row =? 1)%nat || (row =? 2)%nat)
              && ((col =? 1)%nat || (col =? 2)%nat)).
    + destruct (random next >? 0.3); [| apply IH].
      constructor; [| apply IH]. simpl.
      pose proof (Hrandom (S next)). lra.
    + destruct (row =? 3)%nat; [| apply IH].
      constructor; [| apply IH]. simpl. q_closed.
Qed.

(** X18: whatever the random draws (none is negative), every region or
    object the detectors of RealTimeARViewer and of CloudVisionARViewer
    report, the fallback detection included, has a confidence above 0.5: the
    confidence floor of RealTimeARViewer never drops one of them. *)
Theorem detectors_report_confident_regions_only :
  forall (screenWidth screenHeight : Q) (random : nat -> Q),
    (forall n, 0 <= random n) ->
    Forall (fun region => 0.5 < RealTimeARViewer.region_confidence region)
      (RealTimeARViewer.detectObstaclesInImage screenWidth screenHeight random)
    /\ Forall (fun region => 0.5 < RealTimeARViewer.region_confidence region)
         (RealTimeARViewer.performSimpleDetection screenWidth screenHeight)
    /\ Forall (fun o => 0.5 < CloudVisionARViewer.object_confidence o)
         (CloudVisionARViewer.simulateObjectDetection screenWidth screenHeight
            random).
Proof.
  intros screenWidth screenHeight random Hrandom. split; [| split].
  - apply scanCells_confident, Hrandom.
  - repeat constructor.
  - unfold CloudVisionARViewer.simulateObjectDetection.
    destruct (random 0%nat >? 0.3);
      match goal with
      | |- context [random ?n >? 0.5] => destruct (random n >? 0.5)
      end;
      simpl;
      repeat (apply Forall_cons; [| try apply Forall_nil]);
      cbn [CloudVisionARViewer.object_confidence];
      try q_closed;
      match goal with
      | |- context [random ?n] => pose proof (Hrandom n); lra
      end.
Qed.

Lemma detectors_report_confident_regions_only_witness :
  Forall (fun region => 0.5 < RealTimeARViewer.region_confidence region)
    (RealTimeARViewer.detectObstaclesInImage 400 800 (Scenario.always 0.5))
  /\ Forall (fun region => 0.5 < RealTimeARViewer.region_confidence region)
       (RealTimeARViewer.performSimpleDetection 400 800)
  /\ Forall (fun o => 0.5 < CloudVisionARViewer.object_confidence o)
       (CloudVisionARViewer.simulateObjectDetection 400 800
          (Scenario.always 0.5)).
Proof.
  apply (detectors_report_confident_regions_only 400 800
           (Scenario.always 0.5)).
  intro n. q_closed.
Defined.

(** ** RealTimeARViewer: what blocks and what does not *)

Lemma realtime_fits_false_iff (selected : FurnitureModel)
    (detectedRegions : list RealTimeARViewer.DetectedRegion)
    (st : RealTimeARViewer.State) :
  RealTimeARViewer.fits
    (RealTimeARViewer.checkFit (Some selected) detectedRegions st) = false
  <-> RealTimeARViewer.collision
        (RealTimeARViewer.checkCollision detectedRegions
           (px (RealTimeARViewer.furniturePosition st))
           (py (RealTimeARViewer.furniturePosition st))
           (width (dimensions selected) * RealTimeARViewer.furnitureScale st)
           (height (dimensions selected) * RealTimeARViewer.furnitureScale st))
      = true.
Proof.
  unfold RealTimeARViewer.checkFit.
  destruct (RealTimeARViewer.collision _).
  - split; reflexivity.
  - destruct (existsb _ detectedRegions); split; discriminate.
Qed.

(** X19: RealTimeARViewer refuses a placement exactly when some region of
    type obstacle with a confidence above 0.5 meets the furniture rectangle;
    regions of type clear never block, whatever their confidence, and
    taking one out or putting one in leaves the collision query as it
    was. *)
Theorem realtime_refuses_iff_blocked :
  forall (selected : FurnitureModel)
         (detectedRegions : list RealTimeARViewer.DetectedRegion)
         (st : RealTimeARViewer.State),
    let x := px (RealTimeARViewer.furniturePosition st) in
    let y := py (RealTimeARViewer.furniturePosition st) in
    let w := width (dimensions selected) * RealTimeARViewer.furnitureScale st in
    let h := height (dimensions selected) * RealTimeARViewer.furnitureScale st in
    (RealTimeARViewer.fits
       (RealTimeARViewer.checkFit (Some selected) detectedRegions st) = false
     <-> Exists (fun region =>
           RealTimeARViewer.region_type region = RealTimeARViewer.obstacle
           /\ 0.5 < RealTimeARViewer.region_confidence region
           /\ meets x y w h
                (RealTimeARViewer.region_x region)
                (RealTimeARViewer.region_y region)
                (RealTimeARViewer.region_width region)
                (RealTimeARViewer.region_height region)) detectedRegions)
    /\ (forall before after region,
          RealTimeARViewer.region_type region = RealTimeARViewer.clear ->
          RealTimeARViewer.checkCollision (before ++ region :: after) x y w h
          = RealTimeARViewer.checkCollision (before ++ after) x y w h).
Proof.
  intros selected detectedRegions st x y w h. split.
  - rewrite realtime_fits_false_iff. apply realtime_checkCollision_true.
  - intros before after region Hclear.
    induction before as [|r before IH]; simpl.
    + rewrite Hclear. reflexivity.
    + rewrite IH. reflexivity.
Qed.

(** The clear band of the fallback detection taken out from behind its
    obstacle: the query answers the same. *)
Lemma realtime_refuses_iff_blocked_witness :
  RealTimeARViewer.checkCollision
    ([ {| RealTimeARViewer.region_x := 400 * 0.25;
          RealTimeARViewer.region_y := 800 * 0.25;
          RealTimeARViewer.region_width := 400 * 0.5;
          RealTimeARViewer.region_height := 800 * 0.4;
          RealTimeARViewer.region_type := RealTimeARViewer.obstacle;
          RealTimeARViewer.region_confidence := 0.6 |} ]
     ++ {| RealTimeARViewer.region_x := 0;
           RealTimeARViewer.region_y := 800 * 0.7;
           RealTimeARViewer.region_width := 400;
           RealTimeARViewer.region_height := 800 * 0.3;
           RealTimeARViewer.region_type := RealTimeARViewer.clear;
           RealTimeARViewer.region_confidence := 0.8 |} :: [])
    (px (RealTimeARViewer.furniturePosition Scenario.realTimePlacement))
    (py (RealTimeARViewer.furniturePosition Scenario.realTimePlacement))
    (width (dimensions table_2)
     * RealTimeARViewer.furnitureScale Scenario.realTimePlacement)
    (height (dimensions table_2)
     * RealTimeARViewer.furnitureScale Scenario.realTimePlacement)
  = RealTimeARViewer.checkCollision
      ([ {| RealTimeARViewer.region_x := 400 * 0.25;
            RealTimeARViewer.region_y := 800 * 0.25;
            RealTimeARViewer.region_width := 400 * 0.5;
            RealTimeARViewer.region_height := 800 * 0.4;
            RealTimeARViewer.region_type := RealTimeARViewer.obstacle;
            RealTimeARViewer.region_confidence := 0.6 |} ] ++ [])
      (px (RealTimeARViewer.furniturePosition Scenario.realTimePlacement))
      (py (RealTimeARViewer.furniturePosition Scenario.realTimePlacement))
      (width (dimensions table_2)
       * RealTimeARViewer.furnitureScale Scenario.realTimePlacement)
      (height (dimensions table_2)
       * RealTimeARViewer.furnitureScale Scenario.realTimePlacement).
Proof.
  destruct (realtime_refuses_iff_blocked table_2 [] Scenario.realTimePlacement)
    as [_ Hclear].
  apply Hclear. reflexivity.
Defined.



Example bookshelf_on_fallback_detection :
  RealTimeARViewer.checkFit (Some shelf_1)
    (RealTimeARViewer.performSimpleDetection 400 800)
    (RealTimeARViewer.initialState 400 800)
  = {| RealTimeARViewer.fits := true;
       RealTimeARViewer.reason := "Clear floor space detected" |}
  /\ RealTimeARViewer.checkFit (Some shelf_1)
       (RealTimeARViewer.performSimpleDetection 400 700)
       (RealTimeARViewer.initialState 400 700)
     = {| RealTimeARViewer.fits := false;
          RealTimeARViewer.reason := "Obstacle detected (60% confidence)" |}.
Proof. split; reflexivity. Qed.

(** ** The grid detection of RealTimeARViewer *)

(** Obstacles of the grid end at three quarters of the window height at the
    latest. *)
Lemma scanCells_obstacles_end_above_band (screenWidth screenHeight : Q)
    (random : nat -> Q) :
  0 <= screenHeight ->
  forall (cells : list (nat * nat)) (next : nat),
    Forall (fun region =>
      RealTimeARViewer.region_type region = RealTimeARViewer.obstacle ->
      RealTimeARViewer.region_y region + RealTimeARViewer.region_height region
      <= screenHeight * 0.75)
      (RealTimeARViewer.scanCells screenWidth screenHeight random cells next).
Proof.
  intros Hsh cells.
  induction cells as [|[row col] rest IH]; intro next; simpl.
  - constructor.
  - destruct (((row =? 1)%nat || (row =? 2)%nat)
              && ((col =? 1)%nat || (col =? 2)%nat)) eqn:Ecentre.
    + destruct (random next >? 0.3); [| apply IH].
      constructor; [| apply IH]. intros _. simpl.
      apply andb_true_iff in Ecentre. destruct Ecentre as [Erow _].
      apply orb_true_iff in Erow.
      destruct Erow as [Erow | Erow]; apply Nat.eqb_eq in Erow; subst row;
        simpl; unfold Qdiv, inject_Z; change (/ 4) with (1 # 4); lra.
    + destruct (row =? 3)%nat; [| apply IH].
      constructor; [| apply IH]. simpl. discriminate.
Qed.

(** Every cell of the bottom row that is visited is reported clear. *)
Lemma scanCells_reports_bottom_row (screenWidth screenHeight : Q)
    (random : nat -> Q) (col : nat) :
  forall (cells : list (nat * nat)) (next : nat),
    In (3%nat, col) cells ->
    In {| RealTimeARViewer.region_x :=
            inject_Z (Z.of_nat col) * (screenWidth / 4);
          RealTimeARViewer.region_y := 3 * (screenHeight / 4);
          RealTimeARViewer.region_width := screenWidth / 4;
          RealTimeARViewer.region_height := screenHeight / 4;
          RealTimeARViewer.region_type := RealTimeARViewer.clear;
          RealTimeARViewer.region_confidence := 0.8 |}
      (RealTimeARViewer.scanCells screenWidth screenHeight random cells next).
Proof.
  induction cells as [|[row' col'] rest IH]; intros next Hin.
  - destruct Hin.
  - destruct Hin as [Heq | Hin].
    + injection Heq as -> ->. simpl. left. reflexivity.
    + simpl.
      destruct (((row' =? 1)%nat || (row' =? 2)%nat)
                && ((col' =? 1)%nat || (col' =? 2)%nat)).
      * destruct (random next >? 0.3); [right |]; apply IH, Hin.
      * destruct (row' =? 3)%nat; [right |]; apply IH, Hin.
Qed.

(** X21: RealTimeARViewer on its grid detection, whatever the random draws,
    on a window of non-negative size.  A placement whose rectangle starts
    below three quarters of the window height is never refused; and when
    its centre is inside the window the reason is "Clear floor space
    detected". *)
Theorem grid_floor_band_is_clear :
  forall (screenWidth screenHeight : Q) (random : nat -> Q)
         (selected : FurnitureModel) (st : RealTimeARViewer.State),
    let x := px (RealTimeARViewer.furniturePosition st) in
    let y := py (RealTimeARViewer.furniturePosition st) in
    let h := height (dimensions selected) * RealTimeARViewer.furnitureScale st in
    let regions :=
      RealTimeARViewer.detectObstaclesInImage screenWidth screenHeight random in
    0 <= screenWidth -> 0 <= screenHeight -> 0 <= h ->
    screenHeight * 0.75 < y - h / 2 ->
    RealTimeARViewer.fits
      (RealTimeARViewer.checkFit (Some selected) regions st) = true
    /\ (0 <= x <= screenWidth -> y <= screenHeight ->
        RealTimeARViewer.checkFit (Some selected) regions st
        = {| RealTimeARViewer.fits := true;
             RealTimeARViewer.reason := "Clear floor space detected" |}).
Proof.
  intros sw sh random selected st x y h regions Hsw Hsh Hh Htop.
  set (w := width (dimensions selected) * RealTimeARViewer.furnitureScale st).
  assert (Hclear : RealTimeARViewer.collision
                     (RealTimeARViewer.checkCollision regions x y w h) = false).
  { apply not_true_iff_false. rewrite realtime_checkCollision_true.
    rewrite Exists_exists. intros (region & Hin & Htype & _ & Hmeets).
    pose proof (scanCells_obstacles_end_above_band sw sh random Hsh
                  (list_prod (seq 0 4) (seq 0 4)) 0%nat) as Hall.
    rewrite Forall_forall in Hall. specialize (Hall region Hin Htype).
    destruct Hmeets as (_ & _ & _ & Hm). q_div. lra. }
  split.
  - apply not_false_iff_true. rewrite realtime_fits_false_iff.
    fold x y w h. rewrite Hclear. discriminate.
  - intros [Hx0 Hx1] Hy.
    unfold RealTimeARViewer.checkFit. fold x y w h. rewrite Hclear.
    assert (Hzone : exists col, (col < 4)%nat
              /\ inject_Z (Z.of_nat col) * (sw / 4) <= x
              /\ x <= inject_Z (Z.of_nat col) * (sw / 4) + sw / 4).
    { unfold Qdiv; change (/ 4) with (1 # 4).
      destruct (Qlt_le_dec x (sw * (1 # 4))) as [H1 | H1];
        [exists 0%nat; simpl; unfold inject_Z; split; [lia | lra] |].
      destruct (Qlt_le_dec x (sw * (2 # 4))) as [H2 | H2];
        [exists 1%nat; simpl; unfold inject_Z; split; [lia | lra] |].
      destruct (Qlt_le_dec x (sw * (3 # 4))) as [H3 | H3];
        [exists 2%nat; simpl; unfold inject_Z; split; [lia | lra] |].
      exists 3%nat; simpl; unfold inject_Z; split; [lia | lra]. }
    destruct Hzone as (col & Hcol & Hleft & Hright).
    assert (E : existsb (fun region =>
                  match RealTimeARViewer.region_type region with
                  | RealTimeARViewer.obstacle => false
                  | RealTimeARViewer.clear =>
                      (x >=? RealTimeARViewer.region_x region)
                      && (x <=? RealTimeARViewer.region_x region
                                + RealTimeARViewer.region_width region)
                      && (y >=? RealTimeARViewer.region_y region)
                      && (y <=? RealTimeARViewer.region_y region
                                + RealTimeARViewer.region_height region)
                  end) regions = true).
    { apply existsb_exists.
      eexists. split.
      - apply (scanCells_reports_bottom_row sw sh random col).
        apply in_prod; apply in_seq; lia.
      - cbn [RealTimeARViewer.region_type RealTimeARViewer.region_x
             RealTimeARViewer.region_y RealTimeARViewer.region_width
             RealTimeARViewer.region_height].
        rewrite !andb_true_iff, !geb_true, !leb_true.
        repeat split; try assumption;
          q_div; unfold Qdiv; change (/ 4) with (1 # 4); lra. }
    rewrite E. reflexivity.
Qed.

Lemma grid_floor_band_is_clear_witness :
  RealTimeARViewer.fits
    (RealTimeARViewer.checkFit (Some table_2)
       (RealTimeARViewer.detectObstaclesInImage 400 800 (Scenario.always 0.5))
       Scenario.realTimeOnFloor) = true
  /\ RealTimeARViewer.checkFit (Some table_2)
       (RealTimeARViewer.detectObstaclesInImage 400 800 (Scenario.always 0.5))
       Scenario.realTimeOnFloor
     = {| RealTimeARViewer.fits := true;
          RealTimeARViewer.reason := "Clear floor space detected" |}.
Proof.
  pose proof (grid_floor_band_is_clear 400 800 (Scenario.always 0.5) table_2
                Scenario.realTimeOnFloor
                ltac:(q_closed) ltac:(q_closed) ltac:(q_closed)
                ltac:(q_closed)) as [Hfits Hreason].
  split; [exact Hfits | apply Hreason; q_closed].
Defined.

(** With every draw at one half the four middle cells are obstacles of
    confidence 0.85 and the bottom row is clear: eight regions. *)
Example grid_detection_at_one_half :
  length (RealTimeARViewer.detectObstaclesInImage 400 800
            (Scenario.always 0.5)) = 8%nat
  /\ RealTimeARViewer.checkFit (Some table_2)
       (RealTimeARViewer.detectObstaclesInImage 400 800 (Scenario.always 0.5))
       (RealTimeARViewer.initialState 400 800)
     = {| RealTimeARViewer.fits := false;
          RealTimeARViewer.reason := "Obstacle detected (85% confidence)" |}.
Proof. split; reflexivity. Qed.

(** ** ImageARViewer: fixed margins *)

(** X22: ImageARViewer accepts a placement only on a window wider than 100
    and higher than 300, whatever the item and the scale, since its margins
    do not depend on the item; and after a reset (the middle of the window,
    scale 0.5) it accepts exactly when the window is wider than 100 and
    higher than 400, half the item's width is under 0.8 of the window's
    width and the item's height under the window's height, and the space
    flag is set. *)
Theorem image_viewer_needs_a_large_window :
  forall (screenWidth screenHeight : Q) (selected : FurnitureModel)
         (st : ImageARViewer.State),
    (ImageARViewer.checkFit screenWidth screenHeight (Some selected) st = true ->
     100 < screenWidth /\ 300 < screenHeight
     /\ ImageARViewer.spaceDetected st = true)
    /\ (ImageARViewer.checkFit screenWidth screenHeight (Some selected)
          (ImageARViewer.resetPlacement screenWidth screenHeight st) = true
        <-> 100 < screenWidth /\ 400 < screenHeight
            /\ width (dimensions selected) * 0.5 < screenWidth * 0.8
            /\ height (dimensions selected) < screenHeight
            /\ ImageARViewer.spaceDetected st = true).
Proof.
  intros sw sh [i n t [w h d] c] [s [x y] placed space].
  unfold ImageARViewer.checkFit, ImageARViewer.resetPlacement.
  cbn [ImageARViewer.furnitureScale ImageARViewer.furniturePosition
       ImageARViewer.spaceDetected px py width height dimensions].
  rewrite !andb_true_iff, !gtb_true, !ltb_true. q_div. split.
  - intros [[[[[H1 H2] H3] H4] [H5 H6]] H7]. repeat split; try assumption; lra.
  - split.
    + intros [[[[[H1 H2] H3] H4] [H5 H6]] H7].
      repeat split; try assumption; lra.
    + intros (H1 & H2 & H3 & H4 & H5). repeat split; try assumption; lra.
Qed.

Lemma image_viewer_needs_a_large_window_witness :
  (100 < 400 /\ 300 < 800
   /\ ImageARViewer.spaceDetected (ImageARViewer.initialState 400 800) = true)
  /\ (ImageARViewer.checkFit 400 800 (Some table_2)
        (ImageARViewer.resetPlacement 400 800
           (ImageARViewer.initialState 400 800)) = true
      <-> 100 < 400 /\ 400 < 800
          /\ width (dimensions table_2) * 0.5 < 400 * 0.8
          /\ height (dimensions table_2) < 800
          /\ ImageARViewer.spaceDetected (ImageARViewer.initialState 400 800)
             = true).
Proof.
  destruct (image_viewer_needs_a_large_window 400 800 table_2
              (ImageARViewer.initialState 400 800)) as [Hneeds Hreset].
  split; [apply Hneeds; reflexivity | exact Hreset].
Defined.

Example image_viewer_on_two_windows :
  ImageARViewer.checkFit 400 800 (Some table_2)
    (ImageARViewer.initialState 400 800) = true
  /\ ImageARViewer.checkFit 400 400 (Some table_2)
       (ImageARViewer.initialState 400 400) = false.
Proof. split; reflexivity. Qed.

(** ** The selector and the application *)

Lemma or_100_truthy (v : JS.value) : JS.truthy (JS.or v (JS.Num 100)) = true.
Proof.
  unfold JS.or. destruct (JS.truthy v) eqn:E; [exact E | reflexivity].
Qed.

(** X23: [createCustomFurniture] selects nothing exactly when no image is
    uploaded ([null] or the empty string), whatever the three texts; with
    an image it hands over that image and an item "custom-1" whose three
    dimensions are never [NaN] and never zero. *)
Theorem custom_furniture_needs_an_image :
  forall (uploadedImage : option string)
         (customDimensions : FurnitureSelector.CustomDimensions),
    match FurnitureSelector.createCustomFurniture uploadedImage
            customDimensions with
    | None => uploadedImage = None \/ uploadedImage = Some EmptyString
    | Some (furniture, image) =>
        uploadedImage = Some image
        /\ image <> EmptyString
        /\ id furniture = "custom-1"%string
        /\ JS.truthy (width (dimensions furniture)) = true
        /\ JS.truthy (height (dimensions furniture)) = true
        /\ JS.truthy (depth (dimensions furniture)) = true
    end.
Proof.
  intros [[|c image]|] customDimensions; simpl; auto.
  repeat split; try apply or_100_truthy. discriminate.
Qed.

(** A negative width is kept as it is typed. *)
Example negative_width_is_kept :
  FurnitureSelector.createCustomFurniture (Some "file:///sofa.jpg"%string)
    {| FurnitureSelector.width_text := "-120";
       FurnitureSelector.height_text := "0";
       FurnitureSelector.depth_text := "45.5cm" |}
  = Some ({| id := "custom-1"; name := "Custom Furniture"; type := sofa;
             dimensions := {| width := JS.Num (-120); height := JS.Num 100;
                              depth := JS.Num 45.5 |};
             color := "#4B0082" |}, "file:///sofa.jpg"%string).
Proof. reflexivity. Qed.

(** X24: in the application, after any sequence of selections and returns,
    the viewer is shown exactly when an item is selected, and while the
    selector is shown no image is kept. *)
Theorem app_shows_viewer_iff_selected :
  forall (Furniture : Type) (events : list (App.Event Furniture)),
    let st := App.run Furniture events (App.initialState Furniture) in
    (App.showAR Furniture st = true
     <-> App.selectedFurniture Furniture st <> None)
    /\ (App.showAR Furniture st = false ->
        App.furnitureImage Furniture st = None).
Proof.
  intros Furniture events. cbn zeta.
  apply (fold_left_invariant _ _
           (fun st =>
              (App.showAR Furniture st = true
               <-> App.selectedFurniture Furniture st <> None)
              /\ (App.showAR Furniture st = false ->
                  App.furnitureImage Furniture st = None))).
  - intros s [furniture image|] _; simpl.
    + split; [split; [discriminate | reflexivity] | discriminate].
    + split; [split; [discriminate | congruence] | reflexivity].
  - simpl. split; [split; [discriminate | congruence] | reflexivity].
Qed.
